(** * Tool orchestration and session store of the RAG chatbot backend

    A shallow embedding of [backend/search_tools.py] (the [Tool] contract,
    [CourseSearchTool], [CourseOutlineTool], [ToolManager]) and of the
    [SessionManager] class of [backend/tests/test_session_manager.py],
    together with the properties the specification states about them.

    Conventions of the embedding:
    - a Python [int] is a [Z]; a Python [str] is a [string];
    - a method that mutates [self] returns the new object next to its
      result; a method that can raise returns a [Result];
    - the [sessions] dict of the session store is a [gmap]; the [tools]
      dict of the registry, whose iteration order matters, is an
      insertion-ordered association list. *)

From Stdlib Require Import ZArith String List Lia.
From stdpp Require Import base option list strings pretty gmap fin_maps.
Import ListNotations.

Local Open Scope Z_scope.

(** ** Python runtime fragments *)

(** The exceptions the embedded code raises, with their messages. *)
Inductive exn : Type :=
| ValueError (msg : string)
| TypeError (msg : string).

(** The outcome of a call that may raise. *)
Inductive Result (A : Type) : Type :=
| Ok (a : A)
| Raise (e : exn).

Arguments Ok {A} a.
Arguments Raise {A} e.

(** [sep.join(parts)] *)
Fixpoint join (sep : string) (parts : list string) : string :=
  match parts with
  | [] => ""
  | [p] => p
  | p :: rest => p +:+ sep +:+ join sep rest
  end.

(** The newline character, ["\n"]. *)
Definition nl : string := String (Ascii.ascii_of_nat 10) EmptyString.

(** [str(n)] for an [int]. *)
Definition str_of_int (n : Z) : string := pretty n.

(** Truthiness of a [str]: only the empty string is falsy. *)
Definition str_truthy (s : string) : bool :=
  match s with EmptyString => false | String _ _ => true end.

(** Truthiness of an [Optional[str]]. *)
Definition opt_str_truthy (o : option string) : bool :=
  match o with Some s => str_truthy s | None => false end.

(** The scalar values a caller can pass as keyword arguments: [None],
    [bool], [int] and [str]. *)
Inductive value : Type :=
| VNone
| VBool (b : bool)
| VInt (n : Z)
| VStr (s : string).

(** Truthiness of a value, as [if v:] tests it. *)
Definition truthy (v : value) : bool :=
  match v with
  | VNone => false
  | VBool b => b
  | VInt n => negb (n =? 0)
  | VStr s => str_truthy s
  end.

(** [f"{v}"] *)
Definition fmt (v : value) : string :=
  match v with
  | VNone => "None"
  | VBool true => "True"
  | VBool false => "False"
  | VInt n => str_of_int n
  | VStr s => s
  end.

(** Keyword arguments, [**kwargs]: a dict from parameter names to values. *)
Definition kwargs : Type := list (string * value).

(** [kw[name]] where the key is present. *)
Fixpoint kw_get (name : string) (kw : kwargs) : option value :=
  match kw with
  | [] => None
  | (k, v) :: rest => if decide (k = name) then Some v else kw_get name rest
  end.

(** The first keyword that a method with parameters [self, params...]
    refuses. *)
Fixpoint kw_refused (fname : string) (params : list string) (kw : kwargs)
  : option exn :=
  match kw with
  | [] => None
  | (k, _) :: rest =>
      if decide (k = "self")
      then Some (TypeError (fname +:+ "() got multiple values for argument 'self'"))
      else if bool_decide (k ∈ params)
      then kw_refused fname params rest
      else Some (TypeError (fname +:+ "() got an unexpected keyword argument '"
                              +:+ k +:+ "'"))
  end.

(** The first keyword that names a parameter the call has already bound by
    position: Python raises before the body of the method runs. *)
Fixpoint kw_rebound (fname : string) (bound : list string) (kw : kwargs)
  : option exn :=
  match kw with
  | [] => None
  | (k, _) :: rest =>
      if bool_decide (k ∈ bound)
      then Some (TypeError (fname +:+ "() got multiple values for argument '"
                              +:+ k +:+ "'"))
      else kw_rebound fname bound rest
  end.

(** The [TypeError] of calling, with the keywords [kw], a method that has
    one required parameter and some optional ones; [None] when the call
    binds. *)
Definition call_error (fname required : string) (optional : list string)
  (kw : kwargs) : option exn :=
  match kw_refused fname (required :: optional) kw with
  | Some e => Some e
  | None =>
      match kw_get required kw with
      | None => Some (TypeError (fname +:+ "() missing 1 required positional argument: '"
                                   +:+ required +:+ "'"))
      | Some _ => None
      end
  end.

(** The value a parameter is bound to; an optional parameter that is not
    passed takes its default, [None]. *)
Definition kw_arg (name : string) (kw : kwargs) : value :=
  default VNone (kw_get name kw).

(** Truthiness of a [list]. *)
Definition list_truthy {A} (l : list A) : bool :=
  match l with [] => false | _ :: _ => true end.

(** ** The session store *)

Module SessionManager.

(** One history entry, the dict [{"role": role, "content": content}]. *)
Record Message : Type := mkMessage { role : string; content : string }.

(** The object state: [self.max_history] and [self.sessions]. *)
Record t : Type := mk {
  max_history : Z;
  sessions : gmap string (list Message)
}.

(** [SessionManager(max_history)] *)
Definition init (max_history : Z) : t :=
  {| max_history := max_history; sessions := ∅ |}.

Definition not_found (session_id : string) : exn :=
  ValueError ("Session " +:+ session_id +:+ " not found").

(** [create_session]; the identifier drawn by [uuid.uuid4()] is an input
    of the model. *)
Definition create_session (uuid : string) (self : t) : string * t :=
  (uuid, {| max_history := max_history self;
            sessions := <[uuid := []]> (sessions self) |}).

(** [add_message]: append, then keep the slice from index 2 on when the
    history is longer than [max_history * 2]. *)
Definition add_message (session_id role content : string) (self : t)
  : Result unit * t :=
  match sessions self !! session_id with
  | None => (Raise (not_found session_id), self)
  | Some history =>
      let appended := history ++ [mkMessage role content] in
      let kept :=
        if Z.of_nat (length appended) >? max_history self * 2
        then drop 2 appended
        else appended in
      (Ok tt, {| max_history := max_history self;
                 sessions := <[session_id := kept]> (sessions self) |})
  end.

(** [get_session_history] *)
Definition get_session_history (session_id : string) (self : t)
  : Result (list Message) :=
  match sessions self !! session_id with
  | None => Raise (not_found session_id)
  | Some history => Ok history
  end.

(** [session_exists] *)
Definition session_exists (session_id : string) (self : t) : bool :=
  bool_decide (is_Some (sessions self !! session_id)).

(** [delete_session] *)
Definition delete_session (session_id : string) (self : t) : bool * t :=
  if bool_decide (is_Some (sessions self !! session_id))
  then (true, {| max_history := max_history self;
                 sessions := delete session_id (sessions self) |})
  else (false, self).

(** [clear_all_sessions] *)
Definition clear_all_sessions (self : t) : t :=
  {| max_history := max_history self; sessions := ∅ |}.

(** [get_session_count] *)
Definition get_session_count (self : t) : Z :=
  Z.of_nat (size (sessions self)).

(** [get_formatted_history] *)
Definition get_formatted_history (session_id : string) (self : t)
  : Result string :=
  match get_session_history session_id self with
  | Raise e => Raise e
  | Ok history =>
      let formatted :=
        fold_left (fun formatted msg =>
                     formatted ++ [role msg +:+ ": " +:+ content msg])
                  history [] in
      Ok (join nl formatted)
  end.

(** A call of [add_message], as the caller issues it. *)
Record Call : Type := mkCall {
  call_id : string; call_role : string; call_content : string
}.

(** A sequence of [add_message] calls; a call that raises leaves the
    store as it was and the caller carries on. *)
Definition add_messages (calls : list Call) (self : t) : t :=
  fold_left (fun sm c =>
               snd (add_message (call_id c) (call_role c) (call_content c) sm))
            calls self.

(** How many calls of the sequence address [session_id]. *)
Definition calls_to (session_id : string) (calls : list Call) : nat :=
  length (filter (fun c => call_id c = session_id) calls).

(** The stored history of a session, [[]] when there is none. *)
Definition history_of (session_id : string) (self : t) : list Message :=
  default [] (sessions self !! session_id).

(** The invariant of a history that started empty and took [n] appends:
    it is within the bound, and its length has the parity of [n] (with
    [max_history = 0] it stays empty). *)
Definition paired (m : Z) (n : nat) (h : list Message) : Prop :=
  Z.of_nat (length h) <= 2 * m ∧
  ((m = 0 ∧ h = []) ∨ (1 <= m ∧ ∃ q : nat, (length h + n = 2 * q)%nat)).

(** A store with one fresh session, as the tests set it up. *)
Definition fresh (max_history : Z) (session_id : string) : t :=
  snd (create_session session_id (init max_history)).

End SessionManager.

(** ** The content store, as the tools consume it *)

(** Modelled from the spec: the metadata dict of a result, with the keys
    [course_title] and [lesson_number]; [None] stands for a key that is
    absent (for [lesson_number], also for a stored [None]). *)
Record Metadata : Type := mkMetadata {
  meta_course_title : option string;
  meta_lesson_number : option Z
}.

(** Modelled from the spec: [SearchResults] of [vector_store.py], with the
    fields the tools read. *)
Record SearchResults : Type := mkSearchResults {
  documents : list string;
  metadata : list Metadata;
  error : option string
}.

(** Modelled from the spec: [SearchResults.is_empty], true when the result
    set holds no document. *)
Definition is_empty (results : SearchResults) : bool :=
  match documents results with [] => true | _ :: _ => false end.

(** Modelled from the spec: a lesson entry of a course outline; [None]
    stands for an absent key. *)
Record LessonInfo : Type := mkLessonInfo {
  lesson_info_number : option Z;
  lesson_info_title : option string;
  lesson_info_link : option string
}.

(** Modelled from the spec: the dict [get_course_by_title] returns. *)
Record CourseInfo : Type := mkCourseInfo {
  info_title : option string;
  info_link : option string;
  info_instructor : option string;
  info_lessons : option (list LessonInfo)
}.

(** A dict is falsy exactly when it has no key. *)
Definition course_info_truthy (c : CourseInfo) : bool :=
  match c with
  | mkCourseInfo None None None None => false
  | _ => true
  end.

(** Modelled from the spec: the interface of [VectorStore] (section 6 of
    the specification). The store is an external collaborator; the tools
    only read from it. *)
Record VectorStore : Type := mkVectorStore {
  search : value -> value -> value -> SearchResults;
  get_lesson_link : string -> Z -> option string;
  get_course_link : string -> option string;
  get_course_by_title : value -> option CourseInfo;
  get_all_course_titles : list string
}.

(** ** The tool contract *)

(** The [input_schema] of a tool definition. *)
Record InputSchema : Type := mkInputSchema {
  schema_type : string;
  properties : list (string * (string * string));
  required : list string
}.

(** The dict [get_tool_definition] returns; [name] is [None] when the key
    is absent. *)
Record ToolDefinition : Type := mkToolDefinition {
  name : option string;
  description : string;
  input_schema : InputSchema
}.

(** The abstract base class [Tool], with the two attributes the registry
    probes through [hasattr]: an attribute that is not set reads as
    [None]. *)
Class Tool (T : Type) : Type := {
  get_tool_definition : T -> ToolDefinition;
  execute : kwargs -> T -> Result string * T;
  attr_last_sources : T -> option (list string);
  attr_last_source_links : T -> option (list (option string));
  set_last_sources : list string -> T -> T;
  set_last_source_links : list (option string) -> T -> T
}.

(** ** The search capability *)

Module CourseSearchTool.

(** The object state. [__init__] sets [last_sources] only, so
    [last_source_links] is [None] until the first formatting. *)
Record t : Type := mk {
  store : VectorStore;
  last_sources : list string;
  last_source_links : option (list (option string))
}.

(** [CourseSearchTool(vector_store)] *)
Definition init (vector_store : VectorStore) : t :=
  {| store := vector_store; last_sources := []; last_source_links := None |}.

Definition tool_definition : ToolDefinition :=
  {| name := Some "search_course_content";
     description :=
       "Search course materials with smart course name matching and lesson filtering";
     input_schema :=
       {| schema_type := "object";
          properties :=
            [("query", ("string", "What to search for in the course content"));
             ("course_name",
              ("string",
               "Course title (partial matches work, e.g. 'MCP', 'Introduction')"));
             ("lesson_number",
              ("integer",
               "Specific lesson number to search within (e.g. 1, 2, 3)"))];
          required := ["query"] |} |}.

(** The three lists the loop of [_format_results] builds. *)
Record Acc : Type := mkAcc {
  formatted : list string;
  sources : list string;
  source_links : list (option string)
}.

(** One iteration of the loop of [_format_results]. *)
Definition format_step (vs : VectorStore) (acc : Acc) (dm : string * Metadata)
  : Acc :=
  let '(doc, meta) := dm in
  let course_title := default "unknown" (meta_course_title meta) in
  let lesson_num := meta_lesson_number meta in
  let header := "[" +:+ course_title in
  let header :=
    match lesson_num with
    | Some n => header +:+ " - Lesson " +:+ str_of_int n
    | None => header
    end in
  let header := header +:+ "]" in
  let source := course_title in
  let source :=
    match lesson_num with
    | Some n => source +:+ " - Lesson " +:+ str_of_int n
    | None => source
    end in
  let sources' := sources acc ++ [source] in
  let link : option string := None in
  let link :=
    match lesson_num with
    | Some n => get_lesson_link vs course_title n
    | None => link
    end in
  let link := if opt_str_truthy link then link else get_course_link vs course_title in
  let source_links' := source_links acc ++ [link] in
  let formatted' := formatted acc ++ [header +:+ nl +:+ doc] in
  {| formatted := formatted'; sources := sources'; source_links := source_links' |}.

(** The loop over [zip(results.documents, results.metadata)]. *)
Definition format_loop (vs : VectorStore) (results : SearchResults) : Acc :=
  fold_left (format_step vs)
            (zip (documents results) (metadata results))
            {| formatted := []; sources := []; source_links := [] |}.

(** [_format_results] *)
Definition _format_results (results : SearchResults) (self : t) : string * t :=
  let acc := format_loop (store self) results in
  (join (nl +:+ nl) (formatted acc),
   {| store := store self;
      last_sources := sources acc;
      last_source_links := Some (source_links acc) |}).

(** The text of the empty-result branch of [execute]. *)
Definition no_content (course_name lesson_number : value) : string :=
  let filter_info := "" in
  let filter_info :=
    if truthy course_name
    then filter_info +:+ " in course '" +:+ fmt course_name +:+ "'"
    else filter_info in
  let filter_info :=
    if truthy lesson_number
    then filter_info +:+ " in lesson " +:+ fmt lesson_number
    else filter_info in
  "No relevant content found" +:+ filter_info +:+ ".".

(** [execute(query, course_name=None, lesson_number=None)] *)
Definition execute_search (query course_name lesson_number : value) (self : t)
  : string * t :=
  let results := search (store self) query course_name lesson_number in
  if opt_str_truthy (error results)
  then (default "" (error results), self)
  else if is_empty results
  then (no_content course_name lesson_number, self)
  else _format_results results self.

(** [execute] applied to a dict of keyword arguments, as the registry
    calls it. *)
Definition execute_kwargs (kw : kwargs) (self : t) : Result string * t :=
  match call_error "CourseSearchTool.execute" "query"
                   ["course_name"; "lesson_number"] kw with
  | Some e => (Raise e, self)
  | None =>
      let '(text, self') :=
        execute_search (kw_arg "query" kw) (kw_arg "course_name" kw)
                       (kw_arg "lesson_number" kw) self in
      (Ok text, self')
  end.

End CourseSearchTool.

#[export] Instance CourseSearchTool_Tool : Tool CourseSearchTool.t := {
  get_tool_definition _ := CourseSearchTool.tool_definition;
  execute := CourseSearchTool.execute_kwargs;
  attr_last_sources self := Some (CourseSearchTool.last_sources self);
  attr_last_source_links := CourseSearchTool.last_source_links;
  set_last_sources l self :=
    CourseSearchTool.mk (CourseSearchTool.store self) l
                        (CourseSearchTool.last_source_links self);
  set_last_source_links l self :=
    CourseSearchTool.mk (CourseSearchTool.store self)
                        (CourseSearchTool.last_sources self) (Some l)
}.

(** ** The outline capability *)

Module CourseOutlineTool.

Record t : Type := mk {
  store : VectorStore;
  last_sources : list string;
  last_source_links : option (list (option string))
}.

(** [CourseOutlineTool(vector_store)] *)
Definition init (vector_store : VectorStore) : t :=
  {| store := vector_store; last_sources := []; last_source_links := None |}.

Definition tool_definition : ToolDefinition :=
  {| name := Some "get_course_outline";
     description := "Get course outline with complete lesson list and metadata";
     input_schema :=
       {| schema_type := "object";
          properties :=
            [("course_title",
              ("string",
               "Course title (partial matches work, e.g. 'MCP', 'Introduction')"))];
          required := ["course_title"] |} |}.

(** One iteration of the loop over the lessons. *)
Definition lesson_step (formatted : list string) (lesson : LessonInfo)
  : list string :=
  let lesson_num :=
    match lesson_info_number lesson with
    | Some n => str_of_int n
    | None => "N/A"
    end in
  let lesson_title := default "No title" (lesson_info_title lesson) in
  let lesson_link := default "No link available" (lesson_info_link lesson) in
  let formatted := formatted ++ ["  " +:+ lesson_num +:+ ". " +:+ lesson_title] in
  if str_truthy lesson_link && negb (bool_decide (lesson_link = "No link available"))
  then formatted ++ ["     Link: " +:+ lesson_link]
  else formatted.

(** [_format_course_outline] *)
Definition _format_course_outline (course_info : CourseInfo) (self : t)
  : string * t :=
  let course_title := default "Unknown Course" (info_title course_info) in
  let course_link := default "No link available" (info_link course_info) in
  let instructor := default "Unknown instructor" (info_instructor course_info) in
  let lessons := default [] (info_lessons course_info) in
  let self' :=
    {| store := store self;
       last_sources := [course_title];
       last_source_links := Some [Some course_link] |} in
  let formatted := [] in
  let formatted := formatted ++ ["**Course:** " +:+ course_title] in
  let formatted := formatted ++ ["**Instructor:** " +:+ instructor] in
  let formatted := formatted ++ ["**Course Link:** " +:+ course_link] in
  let formatted := formatted ++ [""] in
  let formatted :=
    if list_truthy lessons
    then
      let formatted := formatted ++ ["**Lessons:**"] in
      let formatted := fold_left lesson_step lessons formatted in
      let formatted := formatted ++ [""] in
      formatted ++ ["**Total Lessons:** "
                      +:+ str_of_int (Z.of_nat (length lessons))]
    else formatted ++ ["**No lessons available**"] in
  (join nl formatted, self').

(** [execute(course_title)] *)
Definition execute_outline (course_title : value) (self : t) : string * t :=
  let course_info := get_course_by_title (store self) course_title in
  let not_found :=
    "Course '" +:+ fmt course_title +:+ "' not found. Available courses: "
      +:+ join ", " (get_all_course_titles (store self)) in
  match course_info with
  | Some info =>
      if course_info_truthy info
      then _format_course_outline info self
      else (not_found, self)
  | None => (not_found, self)
  end.

(** [execute] applied to a dict of keyword arguments, as the registry
    calls it. *)
Definition execute_kwargs (kw : kwargs) (self : t) : Result string * t :=
  match call_error "CourseOutlineTool.execute" "course_title" [] kw with
  | Some e => (Raise e, self)
  | None =>
      let '(text, self') := execute_outline (kw_arg "course_title" kw) self in
      (Ok text, self')
  end.

End CourseOutlineTool.

#[export] Instance CourseOutlineTool_Tool : Tool CourseOutlineTool.t := {
  get_tool_definition _ := CourseOutlineTool.tool_definition;
  execute := CourseOutlineTool.execute_kwargs;
  attr_last_sources self := Some (CourseOutlineTool.last_sources self);
  attr_last_source_links := CourseOutlineTool.last_source_links;
  set_last_sources l self :=
    CourseOutlineTool.mk (CourseOutlineTool.store self) l
                         (CourseOutlineTool.last_source_links self);
  set_last_source_links l self :=
    CourseOutlineTool.mk (CourseOutlineTool.store self)
                         (CourseOutlineTool.last_sources self) (Some l)
}.

(** ** The registry *)

Module ToolManager.
Section WithTool.

Context {T : Type} `{Tool T}.

(** The object state: the dict [self.tools], in insertion order. *)
Record t : Type := mk { tools : list (string * T) }.

(** [ToolManager()] *)
Definition init : t := {| tools := [] |}.

(** [d[key]] where the key is present. *)
Fixpoint dict_get (key : string) (d : list (string * T)) : option T :=
  match d with
  | [] => None
  | (k, v) :: rest => if decide (k = key) then Some v else dict_get key rest
  end.

(** [d[key] = v]: an existing key keeps its place, a new one goes last. *)
Fixpoint dict_set (key : string) (v : T) (d : list (string * T))
  : list (string * T) :=
  match d with
  | [] => [(key, v)]
  | (k, w) :: rest =>
      if decide (k = key) then (k, v) :: rest else (k, w) :: dict_set key v rest
  end.

(** [d.values()] *)
Definition values (d : list (string * T)) : list T := map snd d.

(** [register_tool] *)
Definition register_tool (tool : T) (self : t) : Result unit * t :=
  let tool_def := get_tool_definition tool in
  let tool_name := name tool_def in
  if opt_str_truthy tool_name
  then (Ok tt, {| tools := dict_set (default "" tool_name) tool (tools self) |})
  else (Raise (ValueError "Tool must have a 'name' in its definition"), self).

(** [get_tool_definitions] *)
Definition get_tool_definitions (self : t) : list ToolDefinition :=
  map get_tool_definition (values (tools self)).

(** The parameters of [execute_tool] that every call binds by position, so
    that the keyword dict cannot name them. *)
Definition own_parameters : list string := ["self"; "tool_name"].

(** [execute_tool(tool_name, **kw)]: the call binds [self] and [tool_name]
    and collects the other keywords; then the body runs, and the tool the
    call mutates stays in its slot. *)
Definition execute_tool (tool_name : string) (kw : kwargs) (self : t)
  : Result string * t :=
  match kw_rebound "ToolManager.execute_tool" own_parameters kw with
  | Some e => (Raise e, self)
  | None =>
      match dict_get tool_name (tools self) with
      | None => (Ok ("Tool '" +:+ tool_name +:+ "' not found"), self)
      | Some tool =>
          let '(result, tool') := execute kw tool in
          (result, {| tools := dict_set tool_name tool' (tools self) |})
      end
  end.

(** The loop of [get_last_sources] over [self.tools.values()]. *)
Fixpoint first_last_sources (vals : list T) : list string :=
  match vals with
  | [] => []
  | tool :: rest =>
      match attr_last_sources tool with
      | Some l => if list_truthy l then l else first_last_sources rest
      | None => first_last_sources rest
      end
  end.

(** [get_last_sources] *)
Definition get_last_sources (self : t) : list string :=
  first_last_sources (values (tools self)).

(** The loop of [get_last_source_links]. *)
Fixpoint first_last_source_links (vals : list T) : list (option string) :=
  match vals with
  | [] => []
  | tool :: rest =>
      match attr_last_source_links tool with
      | Some l => if list_truthy l then l else first_last_source_links rest
      | None => first_last_source_links rest
      end
  end.

(** [get_last_source_links] *)
Definition get_last_source_links (self : t) : list (option string) :=
  first_last_source_links (values (tools self)).

(** The body of the loop of [reset_sources]. *)
Definition reset_tool (tool : T) : T :=
  let tool :=
    match attr_last_sources tool with
    | Some _ => set_last_sources [] tool
    | None => tool
    end in
  match attr_last_source_links tool with
  | Some _ => set_last_source_links [] tool
  | None => tool
  end.

(** [reset_sources] *)
Definition reset_sources (self : t) : t :=
  {| tools := map (fun kv => (fst kv, reset_tool (snd kv))) (tools self) |}.

(** A start-up sequence of [register_tool] calls; a tool that is refused
    is skipped. *)
Definition register_all (new_tools : list T) (self : t) : t :=
  fold_left (fun tm tool => snd (register_tool tool tm)) new_tools self.

(** The labels a tool holds: [last_sources], or nothing when the attribute
    is not set. *)
Definition cited (tool : T) : list string :=
  default [] (attr_last_sources tool).

End WithTool.
Arguments t T : clear implicits.
End ToolManager.

(** The tools the backend registers: one registry holds both classes. *)
Inductive AnyTool : Type :=
| Search (tool : CourseSearchTool.t)
| Outline (tool : CourseOutlineTool.t).

#[export] Instance AnyTool_Tool : Tool AnyTool := {
  get_tool_definition tool :=
    match tool with
    | Search s => get_tool_definition s
    | Outline o => get_tool_definition o
    end;
  execute kw tool :=
    match tool with
    | Search s => let '(r, s') := execute kw s in (r, Search s')
    | Outline o => let '(r, o') := execute kw o in (r, Outline o')
    end;
  attr_last_sources tool :=
    match tool with
    | Search s => attr_last_sources s
    | Outline o => attr_last_sources o
    end;
  attr_last_source_links tool :=
    match tool with
    | Search s => attr_last_source_links s
    | Outline o => attr_last_source_links o
    end;
  set_last_sources l tool :=
    match tool with
    | Search s => Search (set_last_sources l s)
    | Outline o => Outline (set_last_sources l o)
    end;
  set_last_source_links l tool :=
    match tool with
    | Search s => Search (set_last_source_links l s)
    | Outline o => Outline (set_last_source_links l o)
    end
}.

(** ** The formatting rules, in the words of the specification *)

(** The lesson segment of a header or label: present exactly when the
    metadata has a lesson number. *)
Definition lesson_segment (meta : Metadata) : string :=
  match meta_lesson_number meta with
  | Some n => " - Lesson " +:+ str_of_int n
  | None => ""
  end.

(** The header of a block: the course title in brackets, with the lesson
    segment. *)
Definition block_header (meta : Metadata) : string :=
  "[" +:+ default "unknown" (meta_course_title meta) +:+ lesson_segment meta +:+ "]".

(** A block: header, newline, document text. *)
Definition block_text (dm : string * Metadata) : string :=
  block_header (snd dm) +:+ nl +:+ fst dm.

(** The display label of the citation of a block. *)
Definition citation_label (dm : string * Metadata) : string :=
  default "unknown" (meta_course_title (snd dm)) +:+ lesson_segment (snd dm).

(** The link of the citation of a block: the lesson link when the block has
    a lesson number and the store knows a non-empty link for it, the course
    link otherwise. *)
Definition citation_link (vs : VectorStore) (dm : string * Metadata)
  : option string :=
  let title := default "unknown" (meta_course_title (snd dm)) in
  match meta_lesson_number (snd dm) with
  | Some n =>
      if opt_str_truthy (get_lesson_link vs title n)
      then get_lesson_link vs title n
      else get_course_link vs title
  | None => get_course_link vs title
  end.

(** The blocks a call of [CourseSearchTool.execute] formats: none on the
    error and the empty-result branch. *)
Definition formatted_blocks (vs : VectorStore) (query course_name lesson_number : value)
  : list string :=
  let results := search vs query course_name lesson_number in
  if opt_str_truthy (error results) then []
  else if is_empty results then []
  else CourseSearchTool.formatted (CourseSearchTool.format_loop vs results).

(** ** A small store and registry for the examples *)

Module Demo.

Definition found : SearchResults :=
  {| documents := ["MCP connects models to tools."; "Welcome to the course."];
     metadata := [mkMetadata (Some "MCP Basics") (Some 1);
                  mkMetadata (Some "MCP Basics") None];
     error := None |}.

Definition prelude : SearchResults :=
  {| documents := ["Before you start."];
     metadata := [mkMetadata (Some "MCP Basics") (Some 0)];
     error := None |}.

Definition ragged : SearchResults :=
  {| documents := ["one"; "two"; "three"];
     metadata := [mkMetadata (Some "MCP Basics") (Some 2)];
     error := None |}.

Definition nothing : SearchResults :=
  {| documents := []; metadata := []; error := None |}.

Definition failed : SearchResults :=
  {| documents := []; metadata := []; error := Some "Search error: index offline" |}.

(** The store answers by the query text alone. *)
Definition vs : VectorStore :=
  {| search query _ _ :=
       match query with
       | VStr q =>
           if String.eqb q "mcp" then found
           else if String.eqb q "prelude" then prelude
           else if String.eqb q "ragged" then ragged
           else if String.eqb q "boom" then failed
           else nothing
       | _ => nothing
       end;
     get_lesson_link title n :=
       if n =? 1 then Some "https://example.com/mcp/lesson-1" else None;
     get_course_link title := Some "https://example.com/mcp";
     get_course_by_title title :=
       match title with
       | VStr t =>
           if String.eqb t "MCP"
           then Some {| info_title := Some "MCP Basics";
                        info_link := Some "https://example.com/mcp";
                        info_instructor := None;
                        info_lessons :=
                          Some [mkLessonInfo (Some 0) (Some "Prelude") None;
                                mkLessonInfo (Some 1) (Some "Tools")
                                  (Some "https://example.com/mcp/lesson-1")] |}
           else None
       | _ => None
       end;
     get_all_course_titles := ["MCP Basics"; "Retrieval"] |}.

Definition search_tool : CourseSearchTool.t := CourseSearchTool.init vs.

Definition outline_tool : CourseOutlineTool.t := CourseOutlineTool.init vs.

(** The registry of the backend: the search tool first, the outline tool
    second. *)
Definition manager : ToolManager.t AnyTool :=
  ToolManager.register_all [Search search_tool; Outline outline_tool]
                           ToolManager.init.

End Demo.


(** ** Traces of the session store *)

(** The messages a sequence of [add_message] calls appends to one session,
    in call order. *)
Definition messages_to (session_id : string) (calls : list SessionManager.Call)
  : list SessionManager.Message :=
  map (fun c => SessionManager.mkMessage (SessionManager.call_role c)
                                         (SessionManager.call_content c))
      (filter (fun c => SessionManager.call_id c = session_id) calls).

(** What [add_message] stores for a history [h] and a new message, under
    the limit [m]. *)
Definition appended_and_trimmed (m : Z) (h : list SessionManager.Message)
  (msg : SessionManager.Message) : list SessionManager.Message :=
  if Z.of_nat (length (h ++ [msg])) >? m * 2 then drop 2 (h ++ [msg]) else h ++ [msg].

(** The line [get_formatted_history] renders for a message. *)
Definition history_line (msg : SessionManager.Message) : string :=
  SessionManager.role msg +:+ ": " +:+ SessionManager.content msg.

(** ** Citations across a registry *)

(** The links a tool holds: [last_source_links], or nothing when the
    attribute is not set. *)
Definition linked {T : Type} `{Tool T} (tool : T) : list (option string) :=
  default [] (attr_last_source_links tool).

(** Labels and links of a tool are parallel lists. *)
Definition aligned {T : Type} `{Tool T} (tool : T) : Prop :=
  length (ToolManager.cited tool) = length (linked tool).

(** What a caller does to the registry of the backend between two reads of
    the citations. *)
Inductive RegistryOp : Type :=
| OpExecute (tool_name : string) (kw : kwargs)
| OpReset.

Definition run_op (op : RegistryOp) (self : ToolManager.t AnyTool)
  : ToolManager.t AnyTool :=
  match op with
  | OpExecute tool_name kw => snd (ToolManager.execute_tool tool_name kw self)
  | OpReset => ToolManager.reset_sources self
  end.

Definition run_ops (ops : list RegistryOp) (self : ToolManager.t AnyTool)
  : ToolManager.t AnyTool :=
  fold_left (fun tm op => run_op op tm) ops self.

(** ** The outline, line by line *)

(** The lines one lesson contributes to an outline: its numbered title,
    and a link line when the lesson has a link that is neither empty nor
    the placeholder. *)
Definition lesson_lines (lesson : LessonInfo) : list string :=
  let numbered :=
    "  " +:+ match lesson_info_number lesson with
             | Some n => str_of_int n
             | None => "N/A"
             end
         +:+ ". " +:+ default "No title" (lesson_info_title lesson) in
  match lesson_info_link lesson with
  | Some l =>
      if str_truthy l && negb (bool_decide (l = "No link available"))
      then [numbered; "     Link: " +:+ l]
      else [numbered]
  | None => [numbered]
  end.

(** ** The configuration *)

Module Config.

(** The attributes of a [Config] object, as [__init__] leaves them. *)
Record t : Type := mk {
  anthropic_api_key : string;
  anthropic_model : string;
  embedding_model : string;
  chunk_size : Z;
  chunk_overlap : Z;
  max_results : Z;
  max_history : Z;
  chroma_path : string;
  docs_path : string
}.

(** [Config.DEFAULTS] *)
Definition DEFAULTS : t :=
  {| anthropic_api_key := "";
     anthropic_model := "claude-sonnet-4-20250514";
     embedding_model := "all-MiniLM-L6-v2";
     chunk_size := 800;
     chunk_overlap := 100;
     max_results := 5;
     max_history := 2;
     chroma_path := "./chroma_db";
     docs_path := "../docs" |}.

(** [validate] *)
Definition validate (self : t) : Result bool :=
  if negb (str_truthy (anthropic_api_key self))
  then Raise (ValueError "ANTHROPIC_API_KEY is required")
  else if chunk_size self <=? 0
  then Raise (ValueError "CHUNK_SIZE must be positive")
  else if chunk_overlap self <? 0
  then Raise (ValueError "CHUNK_OVERLAP cannot be negative")
  else if chunk_overlap self >=? chunk_size self
  then Raise (ValueError "CHUNK_OVERLAP must be less than CHUNK_SIZE")
  else if max_results self <=? 0
  then Raise (ValueError "MAX_RESULTS must be positive")
  else if max_history self <? 0
  then Raise (ValueError "MAX_HISTORY cannot be negative")
  else Ok true.

End Config.

(** * Properties *)

(** ** The session store *)

Section SessionStore.

Import SessionManager.

Implicit Types (sm : SessionManager.t) (h : list Message).

Lemma max_history_add_message sid r c sm :
  max_history (snd (add_message sid r c sm)) = max_history sm.
Proof. unfold add_message. by destruct (sessions sm !! sid). Qed.

Lemma max_history_add_messages calls sm :
  max_history (add_messages calls sm) = max_history sm.
Proof.
  revert sm. induction calls as [|c calls IH]; intros sm; [done|].
  cbn. unfold add_messages in IH. rewrite IH.
  apply max_history_add_message.
Qed.

(** A call on another session leaves this one alone. *)
Lemma add_message_other sid sid' r c sm :
  sid' ≠ sid →
  sessions (snd (add_message sid' r c sm)) !! sid = sessions sm !! sid.
Proof.
  intros Hne. unfold add_message.
  destruct (sessions sm !! sid'); cbn; [|done].
  by rewrite lookup_insert_ne.
Qed.

(** What a call on a known session stores. *)
Lemma add_message_known sid r c sm h :
  sessions sm !! sid = Some h →
  sessions (snd (add_message sid r c sm)) !! sid =
    Some (if Z.of_nat (length (h ++ [mkMessage r c])) >? max_history sm * 2
          then drop 2 (h ++ [mkMessage r c])
          else h ++ [mkMessage r c]).
Proof.
  intros Hh. unfold add_message. rewrite Hh. cbn.
  by rewrite lookup_insert_eq.
Qed.

Lemma paired_append m n h msg :
  paired m n h →
  paired m (S n)
    (if Z.of_nat (length (h ++ [msg])) >? m * 2
     then drop 2 (h ++ [msg]) else h ++ [msg]).
Proof.
  intros [Hb Hp].
  destruct Hp as [[-> ->]|[Hm [q Hq]]].
  - change (paired 0 (S n) []). split; [cbn; lia|]. by left.
  - destruct (Z.gtb_spec (Z.of_nat (length (h ++ [msg]))) (m * 2)) as [Hgt|Hle];
      unfold paired; rewrite ?length_drop, length_app in *; cbn [length] in *.
    + split; [lia|]. right. split; [done|]. exists q. lia.
    + split; [lia|]. right. split; [done|]. exists (S q). lia.
Qed.

Lemma paired_add_messages m sid calls : ∀ sm n h,
  max_history sm = m →
  sessions sm !! sid = Some h →
  paired m n h →
  ∃ h', sessions (add_messages calls sm) !! sid = Some h' ∧
        paired m (n + calls_to sid calls) h'.
Proof.
  induction calls as [|[cid r c] calls IH]; intros sm n h Hm Hh Hp.
  - exists h. split; [done|]. unfold calls_to. cbn. by rewrite Nat.add_0_r.
  - change (add_messages (mkCall cid r c :: calls) sm)
      with (add_messages calls (snd (add_message cid r c sm))).
    unfold calls_to. rewrite filter_cons. cbn [call_id].
    destruct (decide (cid = sid)) as [->|Hne].
    + cbn [length]. rewrite Nat.add_succ_r, <- Nat.add_succ_l.
      eapply IH.
      * by rewrite max_history_add_message.
      * by apply add_message_known.
      * rewrite Hm. by apply paired_append.
    + eapply IH; [by rewrite max_history_add_message| |done].
      by rewrite add_message_other.
Qed.


(** C2, as stated, fails: with [max_history = 2], one append to a fresh
    session leaves a history of length 1, which is odd. *)
Lemma history_length_odd_after_one_append :
  let h := history_of "s" (add_messages [mkCall "s" "user" "Hello, world!"]
                                        (fresh 2 "s")) in
  ¬ (Nat.Even (length h) ∧ Z.of_nat (length h) <= 2 * 2).
Proof.
  intros h. assert (Hl : length h = 1%nat) by (vm_compute; reflexivity).
  rewrite Hl. intros [[q Hq] _]. lia.
Qed.

(** C2 (amended): for a non-negative [max_history], a session that was
    created empty and then took any sequence of [add_message] calls
    (interleaved with calls on other sessions) holds at most
    [2 * max_history] entries; the length is even after an even number of
    appends to it, and, when [max_history >= 1], odd after an odd
    number. *)
Theorem history_bounded_and_even_after_pairs
  (sm : SessionManager.t) (sid : string) (calls : list Call)
  (Hm : 0 <= max_history sm)
  (Hfresh : sessions sm !! sid = Some []) :
  let h := history_of sid (add_messages calls sm) in
  Z.of_nat (length h) <= 2 * max_history sm ∧
  (Nat.Even (calls_to sid calls) → Nat.Even (length h)) ∧
  (1 <= max_history sm → Nat.Odd (calls_to sid calls) → Nat.Odd (length h)).
Proof.
  assert (Hp : paired (max_history sm) 0 []).
  { split; [cbn; lia|].
    destruct (decide (max_history sm = 0)) as [H0|H0]; [by left|].
    right. split; [lia|]. by exists 0%nat. }
  destruct (paired_add_messages (max_history sm) sid calls sm 0 []
              eq_refl Hfresh Hp) as (h' & Hh' & Hb & Hpar).
  unfold history_of. rewrite Hh'. cbn [default from_option id Nat.add] in *.
  split; [done|]. split.
  - intros [k Hk]. destruct Hpar as [[_ ->]|[_ [q Hq]]].
    + by exists 0%nat.
    + exists (q - k)%nat. lia.
  - intros H1 [k Hk]. destruct Hpar as [[H0 _]|[_ [q Hq]]]; [lia|].
    exists (q - k - 1)%nat. lia.
Qed.

Lemma history_bounded_and_even_after_pairs_witness :
  let sm := fresh 2 "s" in
  let calls := [mkCall "s" "user" "Q1"; mkCall "t" "user" "lost";
                mkCall "s" "assistant" "A1"; mkCall "s" "user" "Q2";
                mkCall "s" "assistant" "A2"; mkCall "s" "user" "Q3";
                mkCall "s" "assistant" "A3"] in
  let h := history_of "s" (add_messages calls sm) in
  Z.of_nat (length h) <= 2 * max_history sm ∧
  (Nat.Even (calls_to "s" calls) → Nat.Even (length h)) ∧
  (1 <= max_history sm → Nat.Odd (calls_to "s" calls) → Nat.Odd (length h)).
Proof.
  apply (history_bounded_and_even_after_pairs (fresh 2 "s") "s").
  - cbn. lia.
  - reflexivity.
Defined.

(** C4, as stated, fails: with [max_history = 0] the append to an empty
    history exceeds the bound and the trimming removes the single entry
    there is, not two. *)
Lemma trim_drops_single_entry_when_max_history_zero :
  let before := history_of "s" (fresh 0 "s") ++ [mkMessage "user" "Test"] in
  let after := history_of "s" (snd (add_message "s" "user" "Test" (fresh 0 "s"))) in
  Z.of_nat (length before) > 0 * 2 ∧
  ¬ (length before = length after + 2)%nat.
Proof.
  intros before after.
  assert (Hb : length before = 1%nat) by (vm_compute; reflexivity).
  assert (Ha : length after = 0%nat) by (vm_compute; reflexivity).
  rewrite Hb, Ha. split; lia.
Qed.

(** C4 (amended): when the append makes the history longer than
    [2 * max_history], the stored history is the appended one without its
    first two entries (the slice from index 2 on): exactly the two oldest
    entries go when the history held an entry before the append, and the
    single appended entry goes when it was empty. Consequently, with
    [max_history = 0] a fresh session's history is empty after every
    append, and with [max_history = 1] the four appends of the test
    leave exactly the last pair. *)
Theorem add_message_trims_oldest_pair
  (sm : SessionManager.t) (sid role content : string) (h : list Message)
  (Hknown : sessions sm !! sid = Some h)
  (Hover : Z.of_nat (length (h ++ [mkMessage role content])) > max_history sm * 2) :
  let appended := h ++ [mkMessage role content] in
  let h' := history_of sid (snd (add_message sid role content sm)) in
  h' = drop 2 appended ∧
  (h ≠ [] → appended = take 2 appended ++ h' ∧ length (take 2 appended) = 2%nat) ∧
  (h = [] → h' = []) ∧
  (∀ sid0 calls, history_of sid0 (add_messages calls (fresh 0 sid0)) = []) ∧
  history_of "s" (add_messages [mkCall "s" "user" "First"; mkCall "s" "assistant" "R1";
                                mkCall "s" "user" "Second"; mkCall "s" "assistant" "R2"]
                               (fresh 1 "s"))
    = [mkMessage "user" "Second"; mkMessage "assistant" "R2"].
Proof.
  cbn zeta. unfold history_of.
  rewrite (add_message_known _ _ _ _ _ Hknown).
  destruct (Z.gtb_spec (Z.of_nat (length (h ++ [mkMessage role content])))
              (max_history sm * 2)) as [_|Hle]; [|lia].
  cbn [default from_option id]. split; [done|]. split; [|split; [|split]].
  - intros Hne. split; [by rewrite take_drop|].
    rewrite length_take, length_app. destruct h; [done|]. cbn [length]. lia.
  - by intros ->.
  - intros sid0 calls.
    assert (Hf : sessions (fresh 0 sid0) !! sid0 = Some []).
    { unfold fresh. cbn. by rewrite lookup_insert_eq. }
    assert (Hp : paired 0 0 []) by (split; [cbn; lia|by left]).
    destruct (paired_add_messages 0 sid0 calls (fresh 0 sid0) 0 []
                eq_refl Hf Hp) as (h' & Hh' & Hb & Hpar).
    rewrite Hh'. destruct Hpar as [[_ ->]|[? _]]; [done|lia].
  - reflexivity.
Qed.

Lemma add_message_trims_oldest_pair_witness :
  let sm := add_messages [mkCall "s" "user" "Old"; mkCall "s" "assistant" "Old response"]
                         (fresh 1 "s") in
  history_of "s" (snd (add_message "s" "user" "New" sm))
    = [mkMessage "user" "New"].
Proof.
  intros sm.
  assert (Hknown : sessions sm !! "s"
                   = Some [mkMessage "user" "Old"; mkMessage "assistant" "Old response"])
    by (vm_compute; reflexivity).
  destruct (add_message_trims_oldest_pair sm "s" "user" "New" _ Hknown) as [Htrim _].
  - vm_compute. reflexivity.
  - exact Htrim.
Defined.

(** C8: on an identifier the store does not hold, [get_session_history]
    and [add_message] raise the not-found error ([ValueError] with the
    message [Session <id> not found]) and leave the store as it is, while
    [delete_session] returns [False] without raising; on an identifier it
    holds, [delete_session] returns [True] and [session_exists] is then
    [False]. *)
Theorem missing_session_raises_on_read_false_on_delete
  (sm : SessionManager.t) (missing known : string)
  (Hmissing : sessions sm !! missing = None)
  (Hknown : is_Some (sessions sm !! known)) :
  get_session_history missing sm = Raise (not_found missing) ∧
  (∀ role content,
     add_message missing role content sm = (Raise (not_found missing), sm)) ∧
  delete_session missing sm = (false, sm) ∧
  fst (delete_session known sm) = true ∧
  session_exists known (snd (delete_session known sm)) = false.
Proof.
  unfold get_session_history, add_message, delete_session, session_exists.
  rewrite Hmissing.
  rewrite (bool_decide_eq_false_2 (is_Some None)) by (by intros [? ?]).
  rewrite (bool_decide_eq_true_2 _ Hknown). cbn.
  repeat split; try done.
  apply bool_decide_eq_false_2. rewrite lookup_delete_eq. by intros [? ?].
Qed.

Lemma missing_session_raises_on_read_false_on_delete_witness :
  let sm := fresh 2 "known-id" in
  get_session_history "nonexistent" sm = Raise (not_found "nonexistent") ∧
  (∀ role content,
     add_message "nonexistent" role content sm
       = (Raise (not_found "nonexistent"), sm)) ∧
  delete_session "nonexistent" sm = (false, sm) ∧
  fst (delete_session "known-id" sm) = true ∧
  session_exists "known-id" (snd (delete_session "known-id" sm)) = false.
Proof.
  apply (missing_session_raises_on_read_false_on_delete (fresh 2 "known-id")).
  - reflexivity.
  - eexists. reflexivity.
Defined.

End SessionStore.

(** ** The search capability *)

Section SearchTool.

Import CourseSearchTool.

Implicit Types (vs : VectorStore) (results : SearchResults) (self : CourseSearchTool.t).

Lemma append_assoc (s1 s2 s3 : string) : (s1 +:+ s2) +:+ s3 = s1 +:+ s2 +:+ s3.
Proof.
  induction s1 as [|a s1 IH]; [reflexivity|].
  change (String a ((s1 +:+ s2) +:+ s3) = String a (s1 +:+ s2 +:+ s3)).
  by rewrite IH.
Qed.

Lemma append_empty_r (s : string) : s +:+ "" = s.
Proof.
  induction s as [|a s IH]; [reflexivity|].
  change (String a (s +:+ "") = String a s). by rewrite IH.
Qed.

(** One iteration appends the block, the label and the link of its pair. *)
Lemma format_step_spec vs acc dm :
  format_step vs acc dm =
    {| formatted := formatted acc ++ [block_text dm];
       sources := sources acc ++ [citation_label dm];
       source_links := source_links acc ++ [citation_link vs dm] |}.
Proof.
  destruct dm as [doc [title lesson]].
  unfold format_step, block_text, block_header, citation_label, citation_link,
    lesson_segment.
  cbn [fst snd meta_course_title meta_lesson_number].
  destruct lesson as [n|].
  - rewrite !append_assoc. cbn. reflexivity.
  - rewrite !append_assoc, append_empty_r. cbn. reflexivity.
Qed.

Lemma format_fold_spec vs (pairs : list (string * Metadata)) : ∀ acc,
  fold_left (format_step vs) pairs acc =
    {| formatted := formatted acc ++ map block_text pairs;
       sources := sources acc ++ map citation_label pairs;
       source_links := source_links acc ++ map (citation_link vs) pairs |}.
Proof.
  induction pairs as [|dm pairs IH]; intros acc.
  - cbn. rewrite !app_nil_r. by destruct acc.
  - cbn [fold_left map]. rewrite IH, format_step_spec. cbn.
    by rewrite <- !app_assoc.
Qed.

(** The loop maps the three rules over the zipped pairs, in their order. *)
Lemma format_loop_spec vs results :
  format_loop vs results =
    let pairs := zip (documents results) (metadata results) in
    {| formatted := map block_text pairs;
       sources := map citation_label pairs;
       source_links := map (citation_link vs) pairs |}.
Proof. unfold format_loop. by rewrite format_fold_spec. Qed.

(** How [execute] chooses its branch. *)
Lemma execute_search_format self query course_name lesson_number :
  let results := search (store self) query course_name lesson_number in
  opt_str_truthy (error results) = false →
  is_empty results = false →
  execute_search query course_name lesson_number self = _format_results results self.
Proof. cbn zeta. intros He Hn. unfold execute_search. by rewrite He, Hn. Qed.

Lemma execute_search_early self query course_name lesson_number :
  let results := search (store self) query course_name lesson_number in
  opt_str_truthy (error results) = true ∨ is_empty results = true →
  snd (execute_search query course_name lesson_number self) = self.
Proof.
  cbn zeta. intros Hbranch. unfold execute_search.
  destruct (opt_str_truthy (error _)); [done|].
  destruct Hbranch as [Hb|Hb]; [done|]. by rewrite Hb.
Qed.


(** C5: on a non-empty result [execute] returns the blocks of the zipped
    (document, metadata) pairs in the order the store gave them, joined by
    a blank line; a block is its header, a newline and the document text;
    the header is the bracketed course title, with [ - Lesson n] exactly
    when the metadata lesson number is not [None], so lesson 0 renders
    [ - Lesson 0] and a missing lesson renders no segment. *)
Theorem format_results_blocks_in_store_order
  (self : CourseSearchTool.t) (query course_name lesson_number : value)
  (Hok : opt_str_truthy
           (error (search (store self) query course_name lesson_number)) = false)
  (Hnonempty : is_empty (search (store self) query course_name lesson_number) = false) :
  let results := search (store self) query course_name lesson_number in
  let pairs := zip (documents results) (metadata results) in
  fst (execute_search query course_name lesson_number self)
    = join (nl +:+ nl) (map block_text pairs) ∧
  formatted (format_loop (store self) results) = map block_text pairs ∧
  (∀ doc title n,
     block_text (doc, mkMetadata (Some title) (Some n))
       = "[" +:+ title +:+ " - Lesson " +:+ str_of_int n +:+ "]" +:+ nl +:+ doc) ∧
  (∀ doc title,
     block_text (doc, mkMetadata (Some title) (Some 0))
       = "[" +:+ title +:+ " - Lesson 0]" +:+ nl +:+ doc) ∧
  (∀ doc title,
     block_text (doc, mkMetadata (Some title) None)
       = "[" +:+ title +:+ "]" +:+ nl +:+ doc).
Proof.
  cbn zeta. rewrite execute_search_format by done.
  unfold _format_results. rewrite format_loop_spec. cbn [fst formatted].
  repeat split.
  - intros doc title n. unfold block_text, block_header, lesson_segment.
    cbn [fst snd meta_course_title meta_lesson_number default from_option id].
    by rewrite !append_assoc.
  - intros doc title. unfold block_text, block_header, lesson_segment.
    cbn [fst snd meta_course_title meta_lesson_number default from_option id].
    change (str_of_int 0) with "0". by rewrite !append_assoc.
  - intros doc title. unfold block_text, block_header, lesson_segment.
    cbn [fst snd meta_course_title meta_lesson_number default from_option id].
    by rewrite !append_assoc.
Qed.

Lemma format_results_blocks_in_store_order_witness :
  fst (execute_search (VStr "mcp") VNone VNone Demo.search_tool)
    = join (nl +:+ nl)
        ["[MCP Basics - Lesson 1]" +:+ nl +:+ "MCP connects models to tools.";
         "[MCP Basics]" +:+ nl +:+ "Welcome to the course."].
Proof.
  exact (proj1 (format_results_blocks_in_store_order
                  Demo.search_tool (VStr "mcp") VNone VNone eq_refl eq_refl)).
Defined.

Lemma zip_take_min {A B} (l : list A) (k : list B) :
  zip l k = zip (take (Nat.min (length l) (length k)) l)
                (take (Nat.min (length l) (length k)) k).
Proof.
  revert k. induction l as [|a l IH]; intros [|b k]; cbn; try done.
  by rewrite <- IH.
Qed.

(** C10: the loop of [_format_results] runs over the zip of documents and
    metadata, so it formats exactly [min (len documents) (len metadata)]
    blocks, those of the first pairs, and records as many labels and links;
    the surplus of the longer sequence is dropped, and the function (which
    has no raising path) returns its text for every input. *)
Theorem format_results_truncates_to_shorter results self :
  let acc := format_loop (store self) results in
  let n := Nat.min (length (documents results)) (length (metadata results)) in
  length (formatted acc) = n ∧
  length (sources acc) = n ∧
  length (source_links acc) = n ∧
  length (last_sources (snd (_format_results results self))) = n ∧
  (∃ links, last_source_links (snd (_format_results results self)) = Some links ∧
            length links = n) ∧
  fst (_format_results results self)
    = join (nl +:+ nl)
        (map block_text (zip (take n (documents results)) (take n (metadata results)))).
Proof.
  cbn zeta. unfold _format_results. rewrite format_loop_spec.
  cbn [fst snd formatted sources source_links last_sources last_source_links].
  rewrite !length_map, length_zip_with.
  repeat split; try done.
  - eexists. split; [done|]. by rewrite length_map, length_zip_with.
  - by rewrite <- zip_take_min.
Qed.

(** C9: a call of [execute] that takes the error branch or the
    empty-result branch returns before any assignment: [last_sources] and
    [last_source_links] (the whole object, in fact) are as before the
    call, so the citations of an earlier call stay. *)
Theorem execute_early_return_keeps_citations
  (self : CourseSearchTool.t) (query course_name lesson_number : value)
  (Hbranch :
     opt_str_truthy (error (search (store self) query course_name lesson_number)) = true
     ∨ is_empty (search (store self) query course_name lesson_number) = true) :
  let self' := snd (execute_search query course_name lesson_number self) in
  last_sources self' = last_sources self ∧
  last_source_links self' = last_source_links self ∧
  self' = self.
Proof.
  cbn zeta. by rewrite execute_search_early.
Qed.

Lemma execute_early_return_keeps_citations_witness :
  let cited := snd (execute_search (VStr "mcp") VNone VNone Demo.search_tool) in
  let after := snd (execute_search (VStr "boom") VNone VNone cited) in
  last_sources after = ["MCP Basics - Lesson 1"; "MCP Basics"] ∧
  last_source_links after = last_source_links cited ∧
  after = cited.
Proof.
  intros cited after.
  exact (execute_early_return_keeps_citations
           cited (VStr "boom") VNone VNone (or_introl eq_refl)).
Defined.

(** C3 (the code departs from the claim): on an empty result the suffix is
    built from the filters that are truthy, not from those that were
    supplied. A lesson number 0 is dropped, and the answer is the one of a
    call without filters; any other lesson number and a non-empty course
    name are rendered as the claim says, course first. *)
Theorem empty_result_suffix_drops_lesson_zero :
  fst (execute_search (VStr "none") VNone (VInt 0) Demo.search_tool)
    = "No relevant content found." ∧
  fst (execute_search (VStr "none") VNone VNone Demo.search_tool)
    = "No relevant content found." ∧
  fst (execute_search (VStr "none") (VStr "X") (VInt 0) Demo.search_tool)
    = "No relevant content found in course 'X'." ∧
  fst (execute_search (VStr "none") (VStr "X") (VInt 3) Demo.search_tool)
    = "No relevant content found in course 'X' in lesson 3." ∧
  fst (execute_search (VStr "none") VNone (VInt 3) Demo.search_tool)
    = "No relevant content found in lesson 3." ∧
  (∀ course_name, no_content course_name (VInt 0) = no_content course_name VNone).
Proof.
  repeat split; try (vm_compute; reflexivity).
Qed.

End SearchTool.

(** ** Citation state of both capabilities *)

Section Citations.

(** C1, as stated, fails: a search that cites two blocks followed by a
    search on which the store reports an error leaves two citations, while
    the most recent call formatted no block. *)
Lemma citations_survive_failed_search :
  let cited :=
    snd (CourseSearchTool.execute_search (VStr "mcp") VNone VNone Demo.search_tool) in
  let after := snd (CourseSearchTool.execute_search (VStr "boom") VNone VNone cited) in
  formatted_blocks Demo.vs (VStr "boom") VNone VNone = [] ∧
  CourseSearchTool.last_sources after = ["MCP Basics - Lesson 1"; "MCP Basics"] ∧
  ¬ (length (CourseSearchTool.last_sources after)
       = length (formatted_blocks Demo.vs (VStr "boom") VNone VNone)).
Proof.
  cbn zeta. split; [reflexivity|]. split; [reflexivity|].
  vm_compute. discriminate.
Qed.

(** C1 (amended): a call of [execute] that reaches the formatting (search:
    no store error and a non-empty result; outline: the course is found)
    assigns fresh citation lists, one entry per formatted block (one for
    an outline), whatever the lists held before; a call that returns early
    (store error, empty result, course not found) leaves the citation
    state as it was. *)
Theorem citations_replaced_when_formatting :
  (∀ (self : CourseSearchTool.t) query course_name lesson_number,
     let results := search (CourseSearchTool.store self) query course_name lesson_number in
     let pairs := zip (documents results) (metadata results) in
     let self' :=
       snd (CourseSearchTool.execute_search query course_name lesson_number self) in
     opt_str_truthy (error results) = false →
     is_empty results = false →
     CourseSearchTool.last_sources self' = map citation_label pairs ∧
     CourseSearchTool.last_source_links self'
       = Some (map (citation_link (CourseSearchTool.store self)) pairs) ∧
     length (CourseSearchTool.last_sources self')
       = length (formatted_blocks (CourseSearchTool.store self)
                                  query course_name lesson_number) ∧
     length (map (citation_link (CourseSearchTool.store self)) pairs)
       = length (formatted_blocks (CourseSearchTool.store self)
                                  query course_name lesson_number)) ∧
  (∀ (self : CourseSearchTool.t) query course_name lesson_number,
     let results := search (CourseSearchTool.store self) query course_name lesson_number in
     opt_str_truthy (error results) = true ∨ is_empty results = true →
     snd (CourseSearchTool.execute_search query course_name lesson_number self) = self) ∧
  (∀ (self : CourseOutlineTool.t) course_title info,
     let self' := snd (CourseOutlineTool.execute_outline course_title self) in
     get_course_by_title (CourseOutlineTool.store self) course_title = Some info →
     course_info_truthy info = true →
     CourseOutlineTool.last_sources self'
       = [default "Unknown Course" (info_title info)] ∧
     CourseOutlineTool.last_source_links self'
       = Some [Some (default "No link available" (info_link info))]) ∧
  (∀ (self : CourseOutlineTool.t) course_title,
     match get_course_by_title (CourseOutlineTool.store self) course_title with
     | Some info => course_info_truthy info = false
     | None => True
     end →
     snd (CourseOutlineTool.execute_outline course_title self) = self).
Proof.
  split; [|split; [|split]].
  - intros self query course_name lesson_number results pairs self' He Hn.
    unfold self', formatted_blocks. fold results.
    rewrite execute_search_format by done. fold results. rewrite He, Hn.
    unfold CourseSearchTool._format_results.
    rewrite format_loop_spec. fold results. fold pairs.
    cbn [snd CourseSearchTool.last_sources CourseSearchTool.last_source_links
           CourseSearchTool.formatted CourseSearchTool.sources
           CourseSearchTool.source_links].
    by rewrite !length_map.
  - intros self query course_name lesson_number results Hb.
    by apply execute_search_early.
  - intros self course_title info self' Hfound Htruthy. unfold self'.
    unfold CourseOutlineTool.execute_outline. rewrite Hfound, Htruthy.
    done.
  - intros self course_title Hmiss.
    unfold CourseOutlineTool.execute_outline.
    destruct (get_course_by_title _ _) as [info|]; [|done].
    by rewrite Hmiss.
Qed.

Lemma citations_replaced_when_formatting_witness :
  let cited :=
    snd (CourseSearchTool.execute_search (VStr "mcp") VNone VNone Demo.search_tool) in
  let again := snd (CourseSearchTool.execute_search (VStr "prelude") VNone VNone cited) in
  CourseSearchTool.last_sources again = ["MCP Basics - Lesson 0"] ∧
  CourseSearchTool.last_source_links again = Some [Some "https://example.com/mcp"] ∧
  CourseOutlineTool.last_sources
    (snd (CourseOutlineTool.execute_outline (VStr "MCP") Demo.outline_tool))
    = ["MCP Basics"].
Proof.
  intros cited again.
  destruct citations_replaced_when_formatting as (Hsearch & _ & Houtline & _).
  destruct (Hsearch cited (VStr "prelude") VNone VNone eq_refl eq_refl)
    as (Hlabels & Hlinks & _).
  destruct (Houtline Demo.outline_tool (VStr "MCP") _ eq_refl eq_refl)
    as (Hout & _).
  split; [exact Hlabels|]. split; [exact Hlinks|exact Hout].
Defined.

End Citations.

(** ** The registry *)

Section Registry.

Context {T : Type} `{Tool T}.

Import ToolManager.

Implicit Types (self : ToolManager.t T) (tool : T) (d : list (string * T)).

Lemma dict_get_None key d : dict_get key d = None ↔ key ∉ map fst d.
Proof.
  induction d as [|[k v] d IH]; cbn.
  - split; [intros _; apply not_elem_of_nil|done].
  - rewrite not_elem_of_cons. destruct (decide (k = key)) as [->|Hne].
    + split; [done|]. by intros [? _].
    + rewrite IH. split; [by intros ?; split|by intros [_ ?]].
Qed.

Lemma dict_get_set key tool d : dict_get key (dict_set key tool d) = Some tool.
Proof.
  induction d as [|[k v] d IH]; cbn.
  - by rewrite decide_True.
  - destruct (decide (k = key)) as [->|Hne]; cbn.
    + by rewrite decide_True.
    + by rewrite decide_False.
Qed.

(** A tool whose labels are empty or not set is passed over by the scan. *)
Lemma first_last_sources_skip (pre rest : list T) :
  Forall (fun tool => cited tool = []) pre →
  first_last_sources (pre ++ rest) = first_last_sources rest.
Proof.
  induction 1 as [|tool pre Hempty _ IH]; [done|].
  cbn. unfold cited in Hempty.
  destruct (attr_last_sources tool) as [l|]; [|done].
  cbn in Hempty. by rewrite Hempty.
Qed.

(** The scan stops at the first tool that holds a label. *)
Lemma first_last_sources_hit tool (rest : list T) :
  cited tool ≠ [] → first_last_sources (tool :: rest) = cited tool.
Proof.
  unfold cited. cbn. destruct (attr_last_sources tool) as [[|s l]|]; done.
Qed.

Lemma register_tool_named tool n self :
  name (get_tool_definition tool) = Some n →
  n ≠ "" →
  register_tool tool self = (Ok tt, {| tools := dict_set n tool (tools self) |}).
Proof.
  intros Hn Hne. unfold register_tool. rewrite Hn. cbn.
  by destruct n.
Qed.

(** C6: [get_last_sources] walks the tools in registration order and
    returns the labels of the first one whose [last_sources] is non-empty:
    the empty list when no tool holds a label, and, when two registered
    tools both hold labels, those of the one registered first, not a
    union. *)
Theorem get_last_sources_first_match self :
  (Forall (fun tool => cited tool = []) (values (tools self)) →
   get_last_sources self = []) ∧
  (∀ pre tool post,
     values (tools self) = pre ++ tool :: post →
     Forall (fun earlier => cited earlier = []) pre →
     cited tool ≠ [] →
     get_last_sources self = cited tool) ∧
  (∀ first second n1 n2,
     name (get_tool_definition first) = Some n1 →
     name (get_tool_definition second) = Some n2 →
     n1 ≠ "" → n2 ≠ "" → n1 ≠ n2 →
     cited first ≠ [] → cited second ≠ [] →
     get_last_sources (register_all [first; second] init) = cited first).
Proof.
  unfold get_last_sources. split; [|split].
  - intros Hall.
    rewrite <- (app_nil_r (values (tools self))).
    by rewrite first_last_sources_skip.
  - intros pre tool post -> Hpre Hhit.
    rewrite first_last_sources_skip by done.
    by apply first_last_sources_hit.
  - intros first second n1 n2 Hn1 Hn2 Hne1 Hne2 Hdiff Hc1 Hc2.
    unfold register_all. cbn [fold_left].
    rewrite (register_tool_named first n1) by done. cbn [snd].
    rewrite (register_tool_named second n2) by done.
    cbn [snd tools init dict_set]. rewrite decide_False by done.
    cbn [values map snd].
    by apply first_last_sources_hit.
Qed.

(** Whether a keyword dict leaves the parameters of [execute_tool] alone. *)
Lemma kw_rebound_own_parameters fname (kw : kwargs) :
  (Forall (fun k => k ≠ "self" ∧ k ≠ "tool_name") (map fst kw) →
   kw_rebound fname own_parameters kw = None) ∧
  (¬ Forall (fun k => k ≠ "self" ∧ k ≠ "tool_name") (map fst kw) →
   ∃ msg, kw_rebound fname own_parameters kw = Some (TypeError msg)).
Proof.
  induction kw as [|[k v] kw [IHok IHbad]]; cbn [kw_rebound map fst].
  - split; [done|]. intros Hno. destruct Hno. constructor.
  - case_bool_decide as Hin; unfold own_parameters in Hin.
    + split; [|intros _; by eexists].
      intros [[Hs Ht] _]%Forall_cons.
      apply elem_of_cons in Hin as [->|Hin]; [done|].
      apply list_elem_of_singleton in Hin. by subst.
    + split.
      * intros [_ Hrest]%Forall_cons. by apply IHok.
      * intros Hno. apply IHbad. intros Hrest. apply Hno. constructor; [|done].
        split; intros ->; apply Hin.
        -- apply list_elem_of_here.
        -- apply list_elem_of_further, list_elem_of_here.
Qed.

(** C7 (amended): for keyword arguments that do not use the names [self]
    and [tool_name], [execute_tool] on a name that is not a key of the
    registry returns the text [Tool '<name>' not found] as an ordinary
    result and changes nothing, and on a registered name it passes the
    keyword arguments to the [execute] of the tool under that name and
    returns what it returns (the tool keeps the state the call left).
    Keyword arguments that do use one of the two names make the call
    raise a [TypeError], whatever the name, and the registry is
    unchanged. *)
Theorem execute_tool_dispatch self (tool_name : string) (kw : kwargs) :
  (Forall (fun k => k ≠ "self" ∧ k ≠ "tool_name") (map fst kw) →
   (tool_name ∉ map fst (tools self) →
    execute_tool tool_name kw self
      = (Ok ("Tool '" +:+ tool_name +:+ "' not found"), self)) ∧
   (∀ tool,
      dict_get tool_name (tools self) = Some tool →
      fst (execute_tool tool_name kw self) = fst (execute kw tool) ∧
      dict_get tool_name (tools (snd (execute_tool tool_name kw self)))
        = Some (snd (execute kw tool)))) ∧
  (¬ Forall (fun k => k ≠ "self" ∧ k ≠ "tool_name") (map fst kw) →
   ∃ msg, execute_tool tool_name kw self = (Raise (TypeError msg), self)).
Proof.
  unfold execute_tool.
  destruct (kw_rebound_own_parameters "ToolManager.execute_tool" kw)
    as [Hok Hbad].
  split.
  - intros Hfree. rewrite (Hok Hfree). split.
    + intros Hmiss. apply dict_get_None in Hmiss. by rewrite Hmiss.
    + intros tool ->. destruct (execute kw tool) as [result tool']. cbn.
      split; [done|]. apply dict_get_set.
  - intros Hused. destruct (Hbad Hused) as [msg ->]. by exists msg.
Qed.

End Registry.

Section RegistryExamples.

Import ToolManager.

Lemma get_last_sources_first_match_witness :
  let searched :=
    snd (execute_tool "search_course_content" [("query", VStr "mcp")] Demo.manager) in
  let both :=
    snd (execute_tool "get_course_outline" [("course_title", VStr "MCP")] searched) in
  get_last_sources Demo.manager = [] ∧
  cited (Outline Demo.outline_tool) = [] ∧
  get_last_sources both = ["MCP Basics - Lesson 1"; "MCP Basics"].
Proof.
  intros searched both.
  split; [|split; [reflexivity|]].
  - apply (proj1 (get_last_sources_first_match Demo.manager)).
    repeat constructor.
  - destruct (get_last_sources_first_match both) as (_ & Hfirst & _).
    refine (Hfirst [] _ [_] eq_refl _ _).
    + constructor.
    + discriminate.
Defined.

(** C7, as stated, fails: a parameter dict that has the key [tool_name]
    (or [self]) cannot be passed to [execute_tool], which has parameters
    of these names; the call on an unregistered name then raises a
    [TypeError] instead of returning the not-found text. *)
Lemma dispatch_raises_on_own_parameter_name :
  execute_tool "nope" [("tool_name", VStr "search_course_content")] Demo.manager
    = (Raise (TypeError
                "ToolManager.execute_tool() got multiple values for argument 'tool_name'"),
       Demo.manager) ∧
  ("nope" ∉ map fst (tools Demo.manager)) ∧
  fst (execute_tool "nope" [("tool_name", VStr "search_course_content")] Demo.manager)
    ≠ Ok "Tool 'nope' not found".
Proof.
  split; [reflexivity|]. split; [|discriminate].
  vm_compute. intros Hin.
  repeat (apply elem_of_cons in Hin as [Hin|Hin]; [discriminate|]).
  by apply elem_of_nil in Hin.
Qed.

Lemma execute_tool_dispatch_witness :
  execute_tool "nope" [("query", VStr "mcp")] Demo.manager
    = (Ok "Tool 'nope' not found", Demo.manager) ∧
  fst (execute_tool "search_course_content" [("query", VStr "prelude")] Demo.manager)
    = Ok ("[MCP Basics - Lesson 0]" +:+ nl +:+ "Before you start.").
Proof.
  split.
  - destruct (execute_tool_dispatch Demo.manager "nope" [("query", VStr "mcp")])
      as [Hfree _].
    apply Hfree.
    + repeat constructor; discriminate.
    + vm_compute. intros Hin.
      repeat (apply elem_of_cons in Hin as [Hin|Hin]; [discriminate|]).
      by apply elem_of_nil in Hin.
  - destruct (execute_tool_dispatch Demo.manager "search_course_content"
                [("query", VStr "prelude")]) as [Hfree _].
    assert (Hkw : Forall (fun k => k ≠ "self" ∧ k ≠ "tool_name")
                         (map fst [("query", VStr "prelude")]))
      by (repeat constructor; discriminate).
    exact (proj1 (proj2 (Hfree Hkw) (Search Demo.search_tool) eq_refl)).
Defined.

End RegistryExamples.

(** * Further properties *)

(** ** The session store: what a history retains *)

Section SessionHistory.

Import SessionManager.

Implicit Types (sm : SessionManager.t) (h msgs : list Message).

(** An invariant that relates the messages appended so far to the stored
    history, and that every append keeps, holds after any sequence of
    calls, whatever is done to other sessions in between. *)
Lemma add_messages_invariant sid (P : list Message → list Message → Prop) m :
  (∀ msgs h msg, P msgs h → P (msgs ++ [msg]) (appended_and_trimmed m h msg)) →
  ∀ calls sm msgs h,
    max_history sm = m →
    sessions sm !! sid = Some h →
    P msgs h →
    ∃ h', sessions (add_messages calls sm) !! sid = Some h' ∧
          P (msgs ++ messages_to sid calls) h'.
Proof.
  intros Hstep. induction calls as [|[cid r c] calls IH]; intros sm msgs h Hm Hh HP.
  - exists h. split; [done|]. unfold messages_to. cbn. by rewrite app_nil_r.
  - change (add_messages (mkCall cid r c :: calls) sm)
      with (add_messages calls (snd (add_message cid r c sm))).
    unfold messages_to. rewrite filter_cons. cbn [call_id].
    destruct (decide (cid = sid)) as [->|Hne].
    + cbn [map call_role call_content]. rewrite (cons_middle _ msgs), app_assoc.
      eapply IH.
      * by rewrite max_history_add_message.
      * by apply add_message_known.
      * rewrite Hm. by apply Hstep.
    + eapply IH; [by rewrite max_history_add_message| |done].
      by rewrite add_message_other.
Qed.

Lemma fresh_lookup m sid : sessions (fresh m sid) !! sid = Some [].
Proof. unfold fresh. cbn. by rewrite lookup_insert_eq. Qed.

(** X1: the history of a session is always a suffix of the messages
    appended to it, in the order of the calls: trimming removes oldest
    entries only, and as long as no more than [2 * max_history] messages
    were appended nothing is removed at all. *)
Theorem history_is_recent_suffix
  (sm : SessionManager.t) (sid : string) (calls : list Call)
  (Hfresh : sessions sm !! sid = Some []) :
  let h := history_of sid (add_messages calls sm) in
  h `suffix_of` messages_to sid calls ∧
  (Z.of_nat (length (messages_to sid calls)) <= 2 * max_history sm →
   h = messages_to sid calls).
Proof.
  destruct (add_messages_invariant sid
              (fun msgs h => h `suffix_of` msgs ∧
                             (Z.of_nat (length msgs) <= 2 * max_history sm → h = msgs))
              (max_history sm)) with (calls := calls) (sm := sm) (msgs := @nil Message)
              (h := @nil Message) as (h' & Hh' & Hsuf & Hall); try done.
  - intros msgs h msg [Hsuf Hall]. unfold appended_and_trimmed. split.
    + case_match.
      * etrans; [apply suffix_drop|]. by apply suffix_app.
      * by apply suffix_app.
    + rewrite length_app. cbn [length]. intros Hle.
      rewrite Hall by lia.
      destruct (Z.gtb_spec (Z.of_nat (length (msgs ++ [msg]))) (max_history sm * 2))
        as [Hgt|_]; [|done].
      rewrite length_app in Hgt. cbn [length] in Hgt. lia.
  - cbn zeta. unfold history_of. rewrite Hh'. cbn [default from_option id].
    by rewrite app_nil_l in *.
Qed.

Lemma history_is_recent_suffix_witness :
  let calls := [mkCall "s" "user" "Q1"; mkCall "s" "assistant" "A1";
                mkCall "s" "user" "Q2"; mkCall "s" "assistant" "A2";
                mkCall "s" "user" "Q3"] in
  history_of "s" (add_messages calls (fresh 1 "s")) `suffix_of` messages_to "s" calls.
Proof.
  intros calls.
  exact (proj1 (history_is_recent_suffix (fresh 1 "s") "s" calls eq_refl)).
Defined.

(** X2: with [max_history >= 1], the number of entries a session holds
    after [n] appends is [n] while [n <= 2 * max_history]; beyond that it
    is [2 * max_history] after an even number of appends and
    [2 * max_history - 1] after an odd number. *)
Theorem history_window_size
  (sm : SessionManager.t) (sid : string) (calls : list Call)
  (Hm : 1 <= max_history sm)
  (Hfresh : sessions sm !! sid = Some []) :
  let n := length (messages_to sid calls) in
  let h := history_of sid (add_messages calls sm) in
  (Z.of_nat n <= 2 * max_history sm → length h = n) ∧
  (2 * max_history sm < Z.of_nat n → Nat.Even n →
   Z.of_nat (length h) = 2 * max_history sm) ∧
  (2 * max_history sm < Z.of_nat n → Nat.Odd n →
   Z.of_nat (length h) = 2 * max_history sm - 1).
Proof.
  set (m := max_history sm) in *.
  destruct (add_messages_invariant sid
              (fun msgs h =>
                 (Z.of_nat (length msgs) <= 2 * m ∧ length h = length msgs) ∨
                 (2 * m < Z.of_nat (length msgs) ∧
                  ∃ q : nat,
                    (length msgs = (2 * q)%nat ∧ Z.of_nat (length h) = 2 * m) ∨
                    (length msgs = (2 * q + 1)%nat ∧ Z.of_nat (length h) = 2 * m - 1)))
              m) with (calls := calls) (sm := sm) (msgs := @nil Message)
              (h := @nil Message) as (h' & Hh' & Hinv); try done.
  - intros msgs h msg Hinv. unfold appended_and_trimmed.
    destruct (Z.gtb_spec (Z.of_nat (length (h ++ [msg]))) (m * 2)) as [Hgt|Hle];
      rewrite ?length_drop, !length_app in *; cbn [length] in *.
    + destruct Hinv as [[Hn Hl]|[Hn [q [[Hq Hl]|[Hq Hl]]]]].
      * right. split; [lia|]. exists (Z.to_nat m). right. lia.
      * right. split; [lia|]. exists q. right. lia.
      * lia.
    + destruct Hinv as [[Hn Hl]|[Hn [q [[Hq Hl]|[Hq Hl]]]]].
      * left. lia.
      * lia.
      * right. split; [lia|]. exists (S q). left. lia.
  - left. cbn. lia.
  - cbn zeta. unfold history_of. rewrite Hh'. cbn [default from_option id].
    rewrite app_nil_l in Hinv.
    split; [|split].
    + intros Hle. destruct Hinv as [[_ Hl]|[Hn _]]; [done|lia].
    + intros Hgt [k Hk]. destruct Hinv as [[Hn _]|[_ [q [[_ Hl]|[Hq _]]]]]; lia.
    + intros Hgt [k Hk]. destruct Hinv as [[Hn _]|[_ [q [[Hq _]|[_ Hl]]]]]; lia.
Qed.

Lemma history_window_size_witness :
  let calls := [mkCall "s" "user" "Q1"; mkCall "s" "assistant" "A1";
                mkCall "s" "user" "Q2"; mkCall "s" "assistant" "A2";
                mkCall "s" "user" "Q3"] in
  Z.of_nat (length (history_of "s" (add_messages calls (fresh 1 "s")))) = 2 * 1 - 1.
Proof.
  intros calls.
  assert (H1 : 1 <= max_history (fresh 1 "s")) by (vm_compute; discriminate).
  apply (proj2 (proj2 (history_window_size (fresh 1 "s") "s" calls H1 eq_refl))).
  - vm_compute. reflexivity.
  - exists 2%nat. reflexivity.
Defined.

(** X3: a store built with [max_history <= 0] (a negative limit is not
    refused) keeps no history: a session that starts empty is empty after
    every sequence of appends. *)
Theorem non_positive_limit_keeps_nothing
  (sm : SessionManager.t) (sid : string) (calls : list Call)
  (Hm : max_history sm <= 0)
  (Hfresh : sessions sm !! sid = Some []) :
  get_session_history sid (add_messages calls sm) = Ok [].
Proof.
  destruct (add_messages_invariant sid (fun _ h => h = []) (max_history sm))
    with (calls := calls) (sm := sm) (msgs := @nil Message) (h := @nil Message)
    as (h' & Hh' & ->); try done.
  - intros msgs h msg ->. unfold appended_and_trimmed. cbn [app length].
    destruct (Z.gtb_spec (Z.of_nat 1) (max_history sm * 2)) as [_|Hle]; [done|lia].
  - unfold get_session_history. by rewrite Hh'.
Qed.

Lemma non_positive_limit_keeps_nothing_witness :
  get_session_history "s"
    (add_messages [mkCall "s" "user" "Q1"; mkCall "s" "assistant" "A1"] (fresh (-3) "s"))
    = Ok [].
Proof.
  apply (non_positive_limit_keeps_nothing (fresh (-3) "s") "s").
  - vm_compute. discriminate.
  - reflexivity.
Defined.

(** X4: with [max_history >= 1], the message just appended is always the
    last entry of the stored history, with its role and content as
    given (any role string is accepted). *)
Theorem appended_message_is_last
  (sm : SessionManager.t) (sid role content : string) (h : list Message)
  (Hm : 1 <= max_history sm)
  (Hknown : sessions sm !! sid = Some h) :
  fst (add_message sid role content sm) = Ok tt ∧
  last (history_of sid (snd (add_message sid role content sm)))
    = Some (mkMessage role content).
Proof.
  split.
  - unfold add_message. by rewrite Hknown.
  - unfold history_of. rewrite (add_message_known _ _ _ _ _ Hknown).
    cbn [default from_option id].
    destruct (Z.gtb_spec (Z.of_nat (length (h ++ [mkMessage role content])))
                (max_history sm * 2)) as [Hgt|_]; [|apply last_snoc].
    rewrite length_app in Hgt. cbn [length] in Hgt.
    destruct h as [|a [|b h]]; cbn [length] in Hgt; [lia|lia|].
    cbn [app drop]. apply last_snoc.
Qed.

Lemma appended_message_is_last_witness :
  let sm := add_messages [mkCall "s" "user" "Old"; mkCall "s" "assistant" "Old response"]
                         (fresh 1 "s") in
  last (history_of "s" (snd (add_message "s" "system" "New" sm)))
    = Some (mkMessage "system" "New").
Proof.
  intros sm.
  assert (Hm : 1 <= max_history sm) by (vm_compute; discriminate).
  assert (Hknown : sessions sm !! "s"
                   = Some [mkMessage "user" "Old"; mkMessage "assistant" "Old response"])
    by (vm_compute; reflexivity).
  exact (proj2 (appended_message_is_last sm "s" "system" "New" _ Hm Hknown)).
Defined.

End SessionHistory.

(** ** The session store: life cycle of a session *)

Section SessionLifeCycle.

Import SessionManager.

Implicit Types (sm : SessionManager.t) (h : list Message).

Lemma session_exists_lookup sid sm :
  session_exists sid sm = true ↔ is_Some (sessions sm !! sid).
Proof. unfold session_exists. apply bool_decide_eq_true. Qed.

(** X5: [add_message] touches one history only: every other session keeps
    its history, no session appears or disappears, and the session count
    is unchanged, whether the call succeeds or raises. *)
Theorem add_message_frame (sm : SessionManager.t) (sid role content : string) :
  let sm' := snd (add_message sid role content sm) in
  (∀ other, other ≠ sid → sessions sm' !! other = sessions sm !! other) ∧
  (∀ any, session_exists any sm' = session_exists any sm) ∧
  get_session_count sm' = get_session_count sm ∧
  max_history sm' = max_history sm.
Proof.
  cbn zeta. split; [|split; [|split]].
  - intros other Hne. by apply add_message_other.
  - intros any. unfold session_exists, add_message.
    destruct (sessions sm !! sid) as [h|] eqn:Hh; [|done]. cbn [snd sessions].
    apply bool_decide_ext. destruct (decide (sid = any)) as [->|Hne].
    + rewrite lookup_insert_eq, Hh. split; eauto.
    + by rewrite lookup_insert_ne.
  - unfold get_session_count, add_message.
    destruct (sessions sm !! sid) as [h|] eqn:Hh; [|done]. cbn [snd sessions].
    by rewrite map_size_insert_Some.
  - apply max_history_add_message.
Qed.

(** X6: [create_session] returns the identifier it drew and leaves that
    session with an empty history, other sessions as they were; the count
    grows by one for a new identifier, and an identifier that was already
    in use has its history reset instead. *)
Theorem create_session_resets_or_adds (sm : SessionManager.t) (uuid : string) :
  let sm' := snd (create_session uuid sm) in
  fst (create_session uuid sm) = uuid ∧
  get_session_history uuid sm' = Ok [] ∧
  session_exists uuid sm' = true ∧
  (∀ other, other ≠ uuid → sessions sm' !! other = sessions sm !! other) ∧
  get_session_count sm'
    = if session_exists uuid sm then get_session_count sm
      else get_session_count sm + 1.
Proof.
  cbn zeta. unfold create_session, get_session_history, session_exists,
    get_session_count. cbn [fst snd sessions].
  rewrite lookup_insert_eq.
  split; [done|]. split; [done|]. split; [|split].
  - apply bool_decide_eq_true_2. eauto.
  - intros other Hne. by rewrite lookup_insert_ne.
  - rewrite map_size_insert. destruct (sessions sm !! uuid) as [h|] eqn:Hh.
    + by rewrite bool_decide_eq_true_2 by eauto.
    + rewrite bool_decide_eq_false_2 by (by intros [? ?]). lia.
Qed.

(** X7: [delete_session] removes exactly one session: the count drops by
    one when the identifier was known, other sessions keep their history,
    and afterwards the identifier is unknown again, so reading it or
    appending to it raises and deleting it once more returns [False]. *)
Theorem delete_session_removes_one (sm : SessionManager.t) (sid : string) :
  let sm' := snd (delete_session sid sm) in
  get_session_count sm'
    = (if session_exists sid sm then get_session_count sm - 1
       else get_session_count sm) ∧
  (∀ other, other ≠ sid → sessions sm' !! other = sessions sm !! other) ∧
  get_session_history sid sm' = Raise (not_found sid) ∧
  (∀ role content,
     add_message sid role content sm' = (Raise (not_found sid), sm')) ∧
  delete_session sid sm' = (false, sm').
Proof.
  cbn zeta.
  assert (Hgone : sessions (snd (delete_session sid sm)) !! sid = None).
  { unfold delete_session. case_bool_decide as Hk; cbn [snd sessions].
    - apply lookup_delete_eq.
    - by apply eq_None_not_Some. }
  split; [|split; [|split; [|split]]].
  - unfold delete_session, session_exists, get_session_count.
    case_bool_decide as Hk; cbn [snd sessions]; [|done].
    rewrite map_size_delete_Some by done. destruct Hk as [h Hh].
    assert (size (sessions sm) ≠ 0%nat).
    { intros H0. apply map_size_empty_inv in H0. by rewrite H0 in Hh. }
    lia.
  - intros other Hne. unfold delete_session.
    case_bool_decide; cbn [snd sessions]; [|done]. by rewrite lookup_delete_ne.
  - unfold get_session_history. by rewrite Hgone.
  - intros role content. unfold add_message. by rewrite Hgone.
  - unfold delete_session at 1. rewrite Hgone.
    by rewrite bool_decide_eq_false_2 by (by intros [? ?]).
Qed.

Lemma join_snoc sep (parts : list string) (p : string) :
  parts ≠ [] → join sep (parts ++ [p]) = join sep parts +:+ sep +:+ p.
Proof.
  induction parts as [|a [|b parts] IH]; intros Hne; [done|done|].
  change (a +:+ sep +:+ join sep ((b :: parts) ++ [p])
          = (a +:+ sep +:+ join sep (b :: parts)) +:+ sep +:+ p).
  rewrite IH by done. by rewrite !append_assoc.
Qed.

(** The loop of [get_formatted_history] renders one line per message. *)
Lemma formatted_lines h : ∀ acc,
  fold_left (fun formatted msg => formatted ++ [role msg +:+ ": " +:+ content msg])
            h acc
    = acc ++ map history_line h.
Proof.
  induction h as [|msg h IH]; intros acc; cbn.
  - by rewrite app_nil_r.
  - rewrite IH. by rewrite <- app_assoc.
Qed.

Lemma get_formatted_history_known sid sm h :
  sessions sm !! sid = Some h →
  get_formatted_history sid sm = Ok (join nl (map history_line h)).
Proof.
  intros Hh. unfold get_formatted_history, get_session_history. rewrite Hh.
  by rewrite formatted_lines.
Qed.

(** X8: [get_formatted_history] renders the stored messages in order, one
    [role: content] line each, joined by newlines (the empty string for an
    empty history); appending a message that needs no trimming extends the
    rendering by a newline and the new line. *)
Theorem formatted_history_grows_by_a_line
  (sm : SessionManager.t) (sid role content : string) (h : list Message)
  (Hknown : sessions sm !! sid = Some h)
  (Hroom : Z.of_nat (length h) + 1 <= 2 * max_history sm) :
  let sm' := snd (add_message sid role content sm) in
  get_formatted_history sid sm = Ok (join nl (map history_line h)) ∧
  get_formatted_history sid sm'
    = Ok (match h with
          | [] => role +:+ ": " +:+ content
          | _ :: _ => join nl (map history_line h) +:+ nl +:+ role +:+ ": " +:+ content
          end).
Proof.
  cbn zeta. split; [by apply get_formatted_history_known|].
  rewrite (get_formatted_history_known sid _ _ (add_message_known _ _ _ _ _ Hknown)).
  destruct (Z.gtb_spec (Z.of_nat (length (h ++ [mkMessage role content])))
              (max_history sm * 2)) as [Hgt|_].
  { rewrite length_app in Hgt. cbn [length] in Hgt. lia. }
  rewrite map_app. destruct h as [|a h]; [done|].
  cbn [map]. by rewrite join_snoc.
Qed.

Lemma formatted_history_grows_by_a_line_witness :
  get_formatted_history "s" (fresh 2 "s") = Ok "" ∧
  get_formatted_history "s" (snd (add_message "s" "user" "Hi" (fresh 2 "s")))
    = Ok "user: Hi".
Proof.
  apply (formatted_history_grows_by_a_line (fresh 2 "s") "s" "user" "Hi" []).
  - reflexivity.
  - vm_compute. discriminate.
Defined.

(** X9: [get_formatted_history] raises exactly when [get_session_history]
    does, with the same not-found error; otherwise it is the newline-joined
    rendering, one [role: content] line per message, of the history that
    [get_session_history] returns. *)
Theorem formatted_history_follows_history (sm : SessionManager.t) (sid : string) :
  match get_session_history sid sm with
  | Raise e => get_formatted_history sid sm = Raise e ∧ e = not_found sid
  | Ok h => get_formatted_history sid sm = Ok (join nl (map history_line h))
  end.
Proof.
  unfold get_session_history.
  destruct (sessions sm !! sid) as [h|] eqn:Hh.
  - by apply get_formatted_history_known.
  - unfold get_formatted_history, get_session_history. by rewrite Hh.
Qed.

End SessionLifeCycle.

(** ** The registry: registration and dispatch *)

Section RegistryFrame.

Context {T : Type} `{Tool T}.

Import ToolManager.

Implicit Types (self : ToolManager.t T) (tool : T) (d : list (string * T)).

Lemma dict_get_set_ne key other tool d :
  other ≠ key → dict_get other (dict_set key tool d) = dict_get other d.
Proof.
  intros Hne. induction d as [|[k v] d IH]; cbn.
  - by rewrite decide_False.
  - destruct (decide (k = key)) as [->|Hk]; cbn.
    + by rewrite !decide_False.
    + by rewrite IH.
Qed.

(** Assignment to a key of the dict keeps the order of the keys and puts a
    new key last. *)
Lemma dict_set_keys key tool d :
  map fst (dict_set key tool d)
    = if bool_decide (key ∈ map fst d) then map fst d else map fst d ++ [key].
Proof.
  induction d as [|[k v] d IH]; cbn.
  - rewrite bool_decide_eq_false_2; [done|apply not_elem_of_nil].
  - destruct (decide (k = key)) as [->|Hk]; cbn.
    + rewrite bool_decide_eq_true_2; [done|apply list_elem_of_here].
    + rewrite IH. case_bool_decide as Hin.
      * rewrite bool_decide_eq_true_2; [done|by apply list_elem_of_further].
      * rewrite bool_decide_eq_false_2; [done|].
        rewrite elem_of_cons. intros [Heq|Hin']; [by apply Hk|by apply Hin].
Qed.

Lemma dict_set_same key tool d :
  dict_get key d = Some tool → dict_set key tool d = d.
Proof.
  induction d as [|[k v] d IH]; cbn; [done|].
  destruct (decide (k = key)) as [->|Hk].
  - by intros [= ->].
  - intros Hget. by rewrite IH.
Qed.

Lemma dict_set_keys_NoDup key tool d :
  NoDup (map fst d) → NoDup (map fst (dict_set key tool d)).
Proof.
  intros Hnd. rewrite dict_set_keys. case_bool_decide as Hin; [done|].
  apply NoDup_app. split; [done|]. split; [|apply NoDup_singleton].
  intros x Hx Hx'. apply list_elem_of_singleton in Hx'. by subst.
Qed.

(** X10: [register_tool] accepts a tool exactly when its definition has a
    non-empty name. It then files the tool under that name: a new name goes
    to the end of the registry, a name already present keeps its position
    and now refers to the new tool (last registration wins), and every
    other entry is untouched. A tool without a name raises the
    [ValueError] and changes nothing. *)
Theorem register_tool_outcome self tool :
  match name (get_tool_definition tool) with
  | Some (String a n) =>
      let key := String a n in
      let self' := snd (register_tool tool self) in
      fst (register_tool tool self) = Ok tt ∧
      dict_get key (tools self') = Some tool ∧
      (∀ other, other ≠ key →
         dict_get other (tools self') = dict_get other (tools self)) ∧
      map fst (tools self')
        = if bool_decide (key ∈ map fst (tools self))
          then map fst (tools self)
          else map fst (tools self) ++ [key]
  | _ =>
      register_tool tool self
        = (Raise (ValueError "Tool must have a 'name' in its definition"), self)
  end.
Proof.
  unfold register_tool.
  destruct (name (get_tool_definition tool)) as [[|a n]|]; [done| |done].
  cbn [opt_str_truthy str_truthy fst snd tools default from_option id].
  split; [done|]. split; [apply dict_get_set|]. split.
  - intros other Hne. by apply dict_get_set_ne.
  - apply dict_set_keys.
Qed.

Lemma register_tool_keys_NoDup self tool :
  NoDup (map fst (tools self)) →
  NoDup (map fst (tools (snd (register_tool tool self)))).
Proof.
  intros Hnd. unfold register_tool.
  destruct (opt_str_truthy _); [|done]. by apply dict_set_keys_NoDup.
Qed.

Lemma register_tool_keys self tool n :
  n ∈ map fst (tools (snd (register_tool tool self)))
  ↔ n ∈ map fst (tools self) ∨ (name (get_tool_definition tool) = Some n ∧ n ≠ "").
Proof.
  unfold register_tool.
  destruct (name (get_tool_definition tool)) as [[|a k]|];
    cbn [opt_str_truthy str_truthy snd tools default from_option id].
  - split; [by left|]. intros [?|[[= <-] ?]]; done.
  - rewrite dict_set_keys. case_bool_decide as Hin.
    + split; [by left|]. intros [?|[[= <-] _]]; done.
    + rewrite elem_of_app, list_elem_of_singleton.
      split; (intros [?|Hn]; [by left|right]).
      * by subst.
      * by destruct Hn as [[= <-] _].
  - split; [by left|]. by intros [?|[? _]].
Qed.

(** X11: whatever tools are registered, in whatever order and with
    whatever repeated names, the registry holds exactly one entry per
    distinct non-empty name among them, and [get_tool_definitions] returns
    one definition per entry. *)
Theorem registry_has_one_entry_per_name (new_tools : list T) :
  let self := register_all new_tools init in
  NoDup (map fst (tools self)) ∧
  (∀ n, n ∈ map fst (tools self)
        ↔ ∃ tool, tool ∈ new_tools ∧ name (get_tool_definition tool) = Some n ∧ n ≠ "") ∧
  length (get_tool_definitions self) = length (tools self).
Proof.
  cbn zeta. unfold register_all. split; [|split].
  - assert (Hgen : ∀ self, NoDup (map fst (tools self)) →
              NoDup (map fst (tools (fold_left
                (fun tm tool => snd (register_tool tool tm)) new_tools self)))).
    { induction new_tools as [|tool ts IH]; intros self Hnd; [done|].
      cbn [fold_left]. apply IH. by apply register_tool_keys_NoDup. }
    apply Hgen. cbn. apply NoDup_nil_2.
  - assert (Hgen : ∀ self n,
              n ∈ map fst (tools (fold_left
                (fun tm tool => snd (register_tool tool tm)) new_tools self))
              ↔ n ∈ map fst (tools self)
                ∨ ∃ tool, tool ∈ new_tools
                          ∧ name (get_tool_definition tool) = Some n ∧ n ≠ "").
    { induction new_tools as [|tool ts IH]; intros self n; cbn [fold_left].
      - split; [by left|]. intros [?|(? & Hin & _)]; [done|].
        by apply elem_of_nil in Hin.
      - rewrite IH, register_tool_keys. split.
        + intros [[?|Hn]|(t & Hin & Hn)]; [by left| |].
          * right. exists tool. split; [apply list_elem_of_here|done].
          * right. exists t. split; [by apply list_elem_of_further|done].
        + intros [?|(t & Hin & Hn)]; [by left; left|].
          apply elem_of_cons in Hin as [->|Hin]; [by left; right|].
          right. by exists t. }
    intros n. rewrite Hgen. cbn. rewrite elem_of_nil.
    split; [intros [[]|?]; done|by right].
  - unfold get_tool_definitions, values. by rewrite !length_map.
Qed.

(** X12: [execute_tool] keeps the registry in shape: the names and their
    order are as before the call, and every tool other than the one called
    is untouched. *)
Theorem execute_tool_frame self (tool_name : string) (kw : kwargs) :
  let self' := snd (execute_tool tool_name kw self) in
  map fst (tools self') = map fst (tools self) ∧
  (∀ other, other ≠ tool_name →
     dict_get other (tools self') = dict_get other (tools self)).
Proof.
  cbn zeta. unfold execute_tool.
  destruct (kw_rebound _ _ kw); [done|].
  destruct (dict_get tool_name (tools self)) as [tool|] eqn:Hget; [|done].
  destruct (execute kw tool) as [result tool']. cbn [snd tools].
  split.
  - rewrite dict_set_keys. rewrite bool_decide_eq_true_2; [done|].
    destruct (decide (tool_name ∈ map fst (tools self))) as [|Hnot]; [done|].
    apply dict_get_None in Hnot. by rewrite Hnot in Hget.
  - intros other Hne. by apply dict_get_set_ne.
Qed.

End RegistryFrame.

(** ** The registry: citations across tools *)

Section RegistryScan.

Context {T : Type} `{Tool T}.

Import ToolManager.

Implicit Types (self : ToolManager.t T) (tool : T) (d : list (string * T)).

Lemma first_last_source_links_skip (pre rest : list T) :
  Forall (fun tool => linked tool = []) pre →
  first_last_source_links (pre ++ rest) = first_last_source_links rest.
Proof.
  induction 1 as [|tool pre Hempty _ IH]; [done|].
  cbn. unfold linked in Hempty.
  destruct (attr_last_source_links tool) as [l|]; [|done].
  cbn in Hempty. by rewrite Hempty.
Qed.

Lemma first_last_source_links_hit tool (rest : list T) :
  linked tool ≠ [] → first_last_source_links (tool :: rest) = linked tool.
Proof.
  unfold linked. cbn. destruct (attr_last_source_links tool) as [[|s l]|]; done.
Qed.

(** When labels and links are parallel in every tool, both scans stop at
    the same tool. *)
Lemma scans_meet (vals : list T) :
  Forall aligned vals →
  (first_last_sources vals = [] ∧ first_last_source_links vals = []) ∨
  ∃ tool, tool ∈ vals ∧ cited tool ≠ [] ∧
          first_last_sources vals = cited tool ∧
          first_last_source_links vals = linked tool.
Proof.
  induction 1 as [|tool vals Hal _ IH]; [by left|].
  destruct (cited tool) as [|s l] eqn:Hc.
  - assert (Hl : linked tool = []).
    { unfold aligned in Hal. rewrite Hc in Hal. by destruct (linked tool). }
    change (tool :: vals) with ([tool] ++ vals).
    rewrite first_last_sources_skip by (by constructor).
    rewrite first_last_source_links_skip by (by constructor).
    destruct IH as [?|(t & Hin & Hrest)]; [by left|].
    right. exists t. split; [by apply list_elem_of_further|done].
  - right. exists tool. split; [apply list_elem_of_here|].
    assert (Hl : linked tool ≠ []).
    { unfold aligned in Hal. rewrite Hc in Hal. by destruct (linked tool). }
    rewrite first_last_sources_hit by (by rewrite Hc).
    rewrite first_last_source_links_hit by done.
    by rewrite Hc.
Qed.

Lemma Forall_values_dict_set (P : T → Prop) key tool d :
  Forall P (values d) → P tool → Forall P (values (dict_set key tool d)).
Proof.
  intros Hall HP. induction d as [|[k v] d IH]; cbn.
  - by constructor.
  - apply Forall_cons in Hall as [Hv Hd]. destruct (decide (k = key)); cbn.
    + by constructor.
    + constructor; [done|]. by apply IH.
Qed.

Lemma Forall_values_dict_get (P : T → Prop) key tool d :
  Forall P (values d) → dict_get key d = Some tool → P tool.
Proof.
  intros Hall. induction d as [|[k v] d IH]; cbn; [done|].
  apply Forall_cons in Hall as [Hv Hd]. destruct (decide (k = key)).
  - by intros [= <-].
  - by apply IH.
Qed.

End RegistryScan.

Section BackendRegistry.

Import ToolManager.

Implicit Types (self : ToolManager.t AnyTool) (tool : AnyTool).

(** A call that raises leaves the tool as it was. *)
Lemma execute_raise_keeps_tool kw tool e :
  fst (execute kw tool) = Raise e → snd (execute kw tool) = tool.
Proof.
  destruct tool as [s|o]; cbn.
  - unfold CourseSearchTool.execute_kwargs.
    destruct (call_error _ _ _ kw); [done|].
    by destruct (CourseSearchTool.execute_search _ _ _ s).
  - unfold CourseOutlineTool.execute_kwargs.
    destruct (call_error _ _ _ kw); [done|].
    by destruct (CourseOutlineTool.execute_outline _ o).
Qed.

(** X13: a dispatch that raises (a keyword the tool does not take, or the
    required one missing) has no effect on the registry: no tool and no
    citation changes. *)
Theorem failed_dispatch_changes_nothing self (tool_name : string) (kw : kwargs) (e : exn)
  (Hraise : fst (execute_tool tool_name kw self) = Raise e) :
  snd (execute_tool tool_name kw self) = self.
Proof.
  revert Hraise. unfold execute_tool.
  destruct (kw_rebound _ _ kw); [done|].
  destruct (dict_get tool_name (tools self)) as [tool|] eqn:Hget; [|done].
  pose proof (execute_raise_keeps_tool kw tool e) as Hkeep.
  destruct (execute kw tool) as [result tool']. cbn [fst snd] in *.
  intros Hr. rewrite (Hkeep Hr). rewrite dict_set_same by done.
  by destruct self.
Qed.

Lemma failed_dispatch_changes_nothing_witness :
  snd (execute_tool "search_course_content" [("course_name", VStr "MCP")] Demo.manager)
    = Demo.manager.
Proof.
  exact (failed_dispatch_changes_nothing Demo.manager "search_course_content"
           [("course_name", VStr "MCP")] _ eq_refl).
Defined.

Lemma reset_tool_clears tool :
  cited (reset_tool tool) = [] ∧ linked (reset_tool tool) = [].
Proof.
  destruct tool as [[vs l [k|]]|[vs l [k|]]]; done.
Qed.

(** X14: after [reset_sources] the registry reports no citation, neither
    labels nor links, whatever the tools held; the names, their order and
    the definitions are as before, and a second reset changes nothing. *)
Theorem reset_sources_clears_citations self :
  get_last_sources (reset_sources self) = [] ∧
  get_last_source_links (reset_sources self) = [] ∧
  map fst (tools (reset_sources self)) = map fst (tools self) ∧
  get_tool_definitions (reset_sources self) = get_tool_definitions self ∧
  reset_sources (reset_sources self) = reset_sources self.
Proof.
  destruct self as [d]. unfold get_last_sources, get_last_source_links,
    get_tool_definitions, reset_sources, values. cbn [tools].
  rewrite !map_map. cbn [fst snd].
  split; [|split; [|split; [|split]]].
  - rewrite <- (app_nil_r (map _ d)). rewrite first_last_sources_skip; [done|].
    apply Forall_map, Forall_forall. intros kv _. apply reset_tool_clears.
  - rewrite <- (app_nil_r (map _ d)). rewrite first_last_source_links_skip; [done|].
    apply Forall_map, Forall_forall. intros kv _. apply reset_tool_clears.
  - done.
  - apply map_ext. intros [k [[vs l [links|]]|[vs l [links|]]]]; done.
  - f_equal. apply map_ext.
    intros [k [[vs l [links|]]|[vs l [links|]]]]; done.
Qed.

Lemma aligned_execute kw tool : aligned tool → aligned (snd (execute kw tool)).
Proof.
  destruct tool as [s|o]; cbn; intros Hal.
  - unfold CourseSearchTool.execute_kwargs.
    destruct (call_error _ _ _ kw); [done|].
    unfold CourseSearchTool.execute_search.
    destruct (opt_str_truthy _); [done|]. destruct (is_empty _); [done|].
    unfold CourseSearchTool._format_results. rewrite format_loop_spec.
    unfold aligned, cited, linked. cbn. by rewrite !length_map.
  - unfold CourseOutlineTool.execute_kwargs.
    destruct (call_error _ _ _ kw); [done|].
    unfold CourseOutlineTool.execute_outline.
    destruct (get_course_by_title _ _) as [info|]; [|done].
    by destruct (course_info_truthy info).
Qed.

Lemma aligned_run_op op self :
  Forall aligned (values (tools self)) →
  Forall aligned (values (tools (run_op op self))).
Proof.
  intros Hal. destruct op as [tool_name kw|]; cbn.
  - unfold execute_tool.
    destruct (kw_rebound _ _ kw); [done|].
    destruct (dict_get tool_name (tools self)) as [tool|] eqn:Hget; [|done].
    pose proof (aligned_execute kw tool
                  (Forall_values_dict_get _ _ _ _ Hal Hget)) as Hal'.
    destruct (execute kw tool) as [result tool']. cbn [snd tools] in *.
    by apply Forall_values_dict_set.
  - unfold reset_sources, values. cbn [tools]. rewrite map_map.
    apply Forall_map, Forall_forall. intros kv _. cbn.
    unfold aligned. by destruct (reset_tool_clears kv.2) as [-> ->].
Qed.

(** X15: through any sequence of dispatches and resets, the labels and the
    links of every tool stay parallel lists; so [get_last_sources] and
    [get_last_source_links], which scan the tools separately, either both
    return nothing or return the labels and the links of one and the same
    tool, of equal length. *)
Theorem citations_stay_parallel self (ops : list RegistryOp)
  (Hal : Forall aligned (values (tools self))) :
  let self' := run_ops ops self in
  Forall aligned (values (tools self')) ∧
  length (get_last_sources self') = length (get_last_source_links self') ∧
  ((get_last_sources self' = [] ∧ get_last_source_links self' = []) ∨
   ∃ tool, tool ∈ values (tools self') ∧ cited tool ≠ [] ∧
           get_last_sources self' = cited tool ∧
           get_last_source_links self' = linked tool).
Proof.
  cbn zeta.
  assert (Hal' : Forall aligned (values (tools (run_ops ops self)))).
  { revert self Hal. unfold run_ops.
    induction ops as [|op ops IH]; intros self Hal; [done|].
    cbn [fold_left]. apply IH. by apply aligned_run_op. }
  split; [done|].
  unfold get_last_sources, get_last_source_links.
  destruct (scans_meet _ Hal') as [[-> ->]|(tool & Hin & Hne & Hs & Hl)].
  - split; [done|by left].
  - split.
    + rewrite Hs, Hl. by apply (proj1 (Forall_forall _ _) Hal').
    + right. by exists tool.
Qed.

Lemma citations_stay_parallel_witness :
  let self' :=
    run_ops [OpExecute "get_course_outline" [("course_title", VStr "MCP")];
             OpExecute "search_course_content" [("query", VStr "mcp")];
             OpExecute "search_course_content" [("query", VStr "boom")]]
            Demo.manager in
  length (get_last_sources self') = length (get_last_source_links self').
Proof.
  intros self'.
  refine (proj1 (proj2 (citations_stay_parallel Demo.manager _ _))).
  repeat constructor.
Defined.

End BackendRegistry.

(** ** The search capability: blocks and their citations *)

Section SearchCitations.

Import CourseSearchTool.

Lemma lookup_map_zip {A B C} (f : A * B → C) (l : list A) (k : list B) i c :
  map f (zip l k) !! i = Some c ↔
  ∃ a b, l !! i = Some a ∧ k !! i = Some b ∧ c = f (a, b).
Proof.
  revert k i. induction l as [|a l IH]; intros [|b k] i; cbn.
  - split; [done|]. by intros (? & ? & ? & _).
  - split; [done|]. by intros (? & ? & ? & _).
  - split; [done|]. by intros (? & ? & _ & ? & _).
  - destruct i as [|i]; cbn.
    + split.
      * intros [= <-]. by exists a, b.
      * by intros (? & ? & [= <-] & [= <-] & ->).
    + apply IH.
Qed.

(** X16: the text and the citations of [_format_results] agree entry by
    entry: the [i]-th block is the [i]-th label in brackets, a newline and
    the [i]-th document, and it has an [i]-th link. *)
Theorem blocks_carry_their_labels
  (vs : VectorStore) (results : SearchResults) (i : nat) (block : string)
  (Hblock : formatted (format_loop vs results) !! i = Some block) :
  ∃ doc label link,
    documents results !! i = Some doc ∧
    sources (format_loop vs results) !! i = Some label ∧
    source_links (format_loop vs results) !! i = Some link ∧
    block = "[" +:+ label +:+ "]" +:+ nl +:+ doc.
Proof.
  revert Hblock. rewrite format_loop_spec. cbn [formatted sources source_links].
  intros (doc & meta & Hd & Hm & ->)%lookup_map_zip.
  exists doc, (citation_label (doc, meta)), (citation_link vs (doc, meta)).
  split; [done|]. split; [|split].
  - apply lookup_map_zip. by exists doc, meta.
  - apply lookup_map_zip. by exists doc, meta.
  - unfold block_text, block_header, citation_label. cbn [fst snd].
    by rewrite !append_assoc.
Qed.

Lemma blocks_carry_their_labels_witness :
  ∃ doc label link,
    documents Demo.found !! 0%nat = Some doc ∧
    sources (format_loop Demo.vs Demo.found) !! 0%nat = Some label ∧
    source_links (format_loop Demo.vs Demo.found) !! 0%nat = Some link ∧
    "[MCP Basics - Lesson 1]" +:+ nl +:+ "MCP connects models to tools."
      = "[" +:+ label +:+ "]" +:+ nl +:+ doc.
Proof.
  exact (blocks_carry_their_labels Demo.vs Demo.found 0 _ eq_refl).
Defined.

(** X17: the link recorded for a block is the lesson link only when the
    metadata has a lesson number and the store knows a non-empty link for
    it; in every other case it is exactly the course link of the block's
    title. So a citation without a usable link arises only where the store
    has no usable course link. *)
Theorem citation_link_falls_back_to_course
  (vs : VectorStore) (results : SearchResults) (i : nat) (link : option string)
  (Hlink : source_links (format_loop vs results) !! i = Some link) :
  ∃ meta,
    metadata results !! i = Some meta ∧
    let title := default "unknown" (meta_course_title meta) in
    match meta_lesson_number meta with
    | Some n =>
        if opt_str_truthy (get_lesson_link vs title n)
        then link = get_lesson_link vs title n
        else link = get_course_link vs title
    | None => link = get_course_link vs title
    end ∧
    (opt_str_truthy link = false → link = get_course_link vs title).
Proof.
  revert Hlink. rewrite format_loop_spec. cbn [source_links].
  intros (doc & meta & Hd & Hm & ->)%lookup_map_zip.
  exists meta. split; [done|]. unfold citation_link. cbn [snd].
  destruct (meta_lesson_number meta) as [n|]; [|done].
  destruct (opt_str_truthy (get_lesson_link vs _ n)) eqn:Ht; [|done].
  split; [done|]. intros Hf. by rewrite Hf in Ht.
Qed.

Lemma citation_link_falls_back_to_course_witness :
  ∃ meta,
    metadata Demo.found !! 1%nat = Some meta ∧
    let title := default "unknown" (meta_course_title meta) in
    match meta_lesson_number meta with
    | Some n =>
        if opt_str_truthy (get_lesson_link Demo.vs title n)
        then Some "https://example.com/mcp" = get_lesson_link Demo.vs title n
        else Some "https://example.com/mcp" = get_course_link Demo.vs title
    | None => Some "https://example.com/mcp" = get_course_link Demo.vs title
    end ∧
    (opt_str_truthy (Some "https://example.com/mcp") = false →
     Some "https://example.com/mcp" = get_course_link Demo.vs title).
Proof.
  exact (citation_link_falls_back_to_course Demo.vs Demo.found 1 _ eq_refl).
Defined.

End SearchCitations.

(** ** The outline capability *)

Section Outline.

Import CourseOutlineTool.

Lemma lesson_step_lines formatted lesson :
  lesson_step formatted lesson = formatted ++ lesson_lines lesson.
Proof.
  unfold lesson_step, lesson_lines.
  destruct (lesson_info_link lesson) as [l|]; cbn [default from_option id].
  - destruct (str_truthy l && negb (bool_decide (l = "No link available")));
      by rewrite <- ?app_assoc.
  - done.
Qed.

Lemma lessons_fold_lines lessons : ∀ formatted,
  fold_left lesson_step lessons formatted
    = formatted ++ concat (map lesson_lines lessons).
Proof.
  induction lessons as [|lesson lessons IH]; intros formatted; cbn.
  - by rewrite app_nil_r.
  - by rewrite IH, lesson_step_lines, <- app_assoc.
Qed.

(** X18: the outline text is, line by line: the course title, the
    instructor, the course link (each with its placeholder when absent), an
    empty line, and then either the no-lessons notice or the lessons
    heading, the lines of the lessons in order, an empty line and the
    lesson count. A lesson gives its numbered title, followed by a link
    line exactly when it has a link that is neither empty nor the
    placeholder. *)
Theorem outline_text_line_by_line (course_info : CourseInfo) (self : CourseOutlineTool.t) :
  let lessons := default [] (info_lessons course_info) in
  fst (_format_course_outline course_info self)
    = join nl
        (["**Course:** " +:+ default "Unknown Course" (info_title course_info);
          "**Instructor:** "
            +:+ default "Unknown instructor" (info_instructor course_info);
          "**Course Link:** "
            +:+ default "No link available" (info_link course_info);
          ""]
         ++ match lessons with
            | [] => ["**No lessons available**"]
            | _ :: _ =>
                ["**Lessons:**"] ++ concat (map lesson_lines lessons)
                  ++ [""; "**Total Lessons:** "
                            +:+ str_of_int (Z.of_nat (length lessons))]
            end) ∧
  (∀ lesson,
     length (lesson_lines lesson)
       = match lesson_info_link lesson with
         | Some l =>
             if decide (l ≠ "" ∧ l ≠ "No link available") then 2%nat else 1%nat
         | None => 1%nat
         end).
Proof.
  cbn zeta. split.
  - unfold _format_course_outline. cbn [fst].
    destruct (default [] (info_lessons course_info)) as [|lesson lessons] eqn:Hl.
    + done.
    + cbn [list_truthy]. rewrite lessons_fold_lines.
      cbn [app]. by rewrite <- !app_assoc.
  - intros lesson. unfold lesson_lines.
    destruct (lesson_info_link lesson) as [l|]; [|done].
    destruct l as [|a l]; cbn [str_truthy andb].
    + rewrite decide_False; [done|]. by intros [? _].
    + cbn [andb]. case_bool_decide as Heq; cbn [negb].
      * rewrite decide_False; [done|]. by intros [_ ?].
      * by rewrite decide_True.
Qed.

End Outline.

(** ** The registry: citations after a dispatch *)

Section Dispatch.

Context {T : Type} `{Tool T}.

Import ToolManager.

Lemma values_dict_set key tool tool' (d : list (string * T)) :
  dict_get key d = Some tool →
  ∃ pre post, values d = pre ++ tool :: post ∧
              values (dict_set key tool' d) = pre ++ tool' :: post.
Proof.
  induction d as [|[k v] d IH]; cbn; [done|].
  destruct (decide (k = key)) as [->|Hne].
  - intros [= ->]. by exists [], (values d).
  - intros Hget. destruct (IH Hget) as (pre & post & Hd & Hd').
    exists (v :: pre), post. cbn. unfold values in *. by rewrite Hd, Hd'.
Qed.

(** X19: on a registry whose tools hold no citation (as [reset_sources]
    leaves it), the labels [get_last_sources] reports after a dispatch are
    exactly those the called tool recorded during that call; a dispatch
    whose keywords use the names [self] or [tool_name] raises before any
    tool runs and leaves nothing to report. *)
Theorem dispatch_reports_its_own_citations
  (self : ToolManager.t T) (tool_name : string) (kw : kwargs) (tool : T)
  (Hclean : Forall (fun t => cited t = []) (values (tools self)))
  (Hknown : dict_get tool_name (tools self) = Some tool) :
  get_last_sources (snd (execute_tool tool_name kw self))
    = if decide (Forall (fun k => k ≠ "self" ∧ k ≠ "tool_name") (map fst kw))
      then cited (snd (execute kw tool))
      else [].
Proof.
  unfold get_last_sources, execute_tool.
  destruct (kw_rebound_own_parameters "ToolManager.execute_tool" kw)
    as [Hok Hbad].
  case_decide as Hfree.
  - rewrite (Hok Hfree), Hknown.
    destruct (execute kw tool) as [result tool']. cbn [snd tools].
    destruct (values_dict_set tool_name tool tool' _ Hknown)
      as (pre & post & Hd & ->).
    rewrite Hd in Hclean. apply Forall_app in Hclean as [Hpre Hrest].
    apply Forall_cons in Hrest as [_ Hpost].
    rewrite first_last_sources_skip by done.
    destruct (cited tool') as [|s l] eqn:Hc.
    + change (tool' :: post) with ([tool'] ++ post).
      rewrite first_last_sources_skip by (by constructor).
      rewrite <- (app_nil_r post). by rewrite first_last_sources_skip.
    + rewrite first_last_sources_hit by (by rewrite Hc). done.
  - destruct (Hbad Hfree) as [msg ->]. cbn [snd].
    rewrite <- (app_nil_r (values (tools self))).
    by rewrite first_last_sources_skip.
Qed.

End Dispatch.

Section DispatchExample.

Import ToolManager.

Lemma dispatch_reports_its_own_citations_witness :
  get_last_sources
    (snd (execute_tool "get_course_outline" [("course_title", VStr "MCP")]
                       Demo.manager))
    = ["MCP Basics"].
Proof.
  refine (dispatch_reports_its_own_citations Demo.manager "get_course_outline"
            [("course_title", VStr "MCP")] (Outline Demo.outline_tool) _ eq_refl).
  repeat constructor.
Defined.

End DispatchExample.

(** ** The configuration *)

Section Configuration.

Import Config.

(** X20: [validate] returns [True] exactly for a configuration with a
    non-empty API key, a positive chunk size, an overlap from 0 up to but
    not including the chunk size, a positive result limit and a
    non-negative history limit; for every other configuration it raises a
    [ValueError], and a missing API key is reported before anything
    else. *)
Theorem validate_accepts_exactly (self : Config.t) :
  (validate self = Ok true ↔
     anthropic_api_key self ≠ "" ∧
     0 < chunk_size self ∧
     0 <= chunk_overlap self < chunk_size self ∧
     0 < max_results self ∧
     0 <= max_history self) ∧
  (validate self = Ok true ∨ ∃ msg, validate self = Raise (ValueError msg)) ∧
  (anthropic_api_key self = "" →
   validate self = Raise (ValueError "ANTHROPIC_API_KEY is required")).
Proof.
  unfold validate.
  destruct (anthropic_api_key self) as [|a key]; cbn [str_truthy negb].
  { split; [|split; [right; eauto|done]]. split; [done|]. by intros [? _]. }
  destruct (Z.leb_spec (chunk_size self) 0).
  { split; [|split; [right; eauto|done]]. split; [done|]. lia. }
  destruct (Z.ltb_spec (chunk_overlap self) 0).
  { split; [|split; [right; eauto|done]]. split; [done|]. lia. }
  destruct (Z.geb_spec (chunk_overlap self) (chunk_size self)).
  { split; [|split; [right; eauto|done]]. split; [done|]. lia. }
  destruct (Z.leb_spec (max_results self) 0).
  { split; [|split; [right; eauto|done]]. split; [done|]. lia. }
  destruct (Z.ltb_spec (max_history self) 0).
  { split; [|split; [right; eauto|done]]. split; [done|]. lia. }
  split; [|split; [by left|done]].
  split; [|done]. intros _. repeat split; try lia. done.
Qed.

End Configuration.
